(** * Polly-API client: a shallow embedding of [client.py]

    The four client functions [register_user], [get_polls], [vote_on_poll]
    and [get_poll_results] are embedded as computations in a small state and
    exception monad.  The state is the log of the requests handed to the
    transport; exceptions are the Python exception classes the source raises
    or lets through. *)

From Stdlib Require Import ZArith List String Ascii Bool Lia.
From Stdlib Require Import DecimalString.
From Stdlib Require Import Floats.PrimFloat.
Import ListNotations.
Local Open Scope list_scope.
Local Open Scope string_scope.
Local Open Scope Z_scope.

Set Warnings "-register-all".

(** ** JSON values, as [response.json()] produces them

    Python's [json] module decodes [null] to [None], booleans to [bool],
    integer literals to [int] (unbounded), other numbers to [float] (binary64),
    strings to [str], arrays to [list] and objects to [dict].  A [dict] is
    kept as the list of its items, one per key. *)

Inductive JSON : Type :=
| JNull
| JBool (b : bool)
| JInt (n : Z)
| JFloat (x : float)
| JString (s : string)
| JArray (items : list JSON)
| JObject (fields : list (string * JSON)).

(** Truth value of a Python object: [None], [False], zero, the empty string
    and empty containers are false, everything else is true. *)
Definition truthy (v : JSON) : bool :=
  match v with
  | JNull => false
  | JBool b => b
  | JInt n => negb (n =? 0)
  | JFloat x => negb (PrimFloat.eqb x 0%float)
  | JString s => negb (String.eqb s "")
  | JArray items => match items with [] => false | _ :: _ => true end
  | JObject fields => match fields with [] => false | _ :: _ => true end
  end.

(** [isinstance(v, list)] and [isinstance(v, dict)]. *)
Definition is_list (v : JSON) : bool :=
  match v with JArray _ => true | _ => false end.

Definition is_dict (v : JSON) : bool :=
  match v with JObject _ => true | _ => false end.

(** [type(v).__name__], as it appears in the message of an [AttributeError]. *)
Definition type_name (v : JSON) : string :=
  match v with
  | JNull => "NoneType"
  | JBool _ => "bool"
  | JInt _ => "int"
  | JFloat _ => "float"
  | JString _ => "str"
  | JArray _ => "list"
  | JObject _ => "dict"
  end.

(** Lookup of a key among the items of a [dict]. *)
Fixpoint dict_lookup (fields : list (string * JSON)) (key : string) : option JSON :=
  match fields with
  | [] => None
  | (k, v) :: rest => if String.eqb k key then Some v else dict_lookup rest key
  end.

(** [d.get(key)]: the value under [key], [None] when the key is missing. *)
Definition dict_get (fields : list (string * JSON)) (key : string) : JSON :=
  match dict_lookup fields key with
  | Some v => v
  | None => JNull
  end.

(** [del d[key]] on the items of a [dict]: the items under other keys stay. *)
Fixpoint dict_remove (fields : list (string * JSON)) (key : string) : list (string * JSON) :=
  match fields with
  | [] => []
  | (k, v) :: rest =>
      if String.eqb k key then dict_remove rest key else (k, v) :: dict_remove rest key
  end.

(** ** Strings *)

(** [str(n)] for an [int]: its decimal digits.  (The interpreter refuses the
    conversion beyond [int_max_str_digits] digits, see below.) *)
Definition str_of_int (n : Z) : string := NilZero.string_of_int (Z.to_int n).

(** [sys.int_info.default_max_str_digits]: since CPython 3.11, and in the
    later releases of 3.7 to 3.10, converting an [int] of more decimal digits
    than this to [str] raises [ValueError]; [str_of_int] gives the text of the
    conversion below that limit. *)
Definition int_max_str_digits : Z := 4300.

(** [s.rstrip(c)] for a one-character argument: every trailing [c] goes. *)
Fixpoint rstrip (c : ascii) (s : string) : string :=
  match s with
  | EmptyString => EmptyString
  | String a rest =>
      match rstrip c rest with
      | EmptyString => if Ascii.eqb a c then EmptyString else String a EmptyString
      | kept => String a kept
      end
  end.

(** [needle in hay] for two strings: [needle] starts at some position of [hay]. *)
Fixpoint str_in (needle hay : string) : bool :=
  String.prefix needle hay
  || match hay with
     | EmptyString => false
     | String _ rest => str_in needle rest
     end.

(** ** Requests and responses of the transport *)

Inductive Method : Type := GET | POST.

Module Request.
(** The arguments of one [http.get] or [http.post] call.  An argument the
    call leaves out ([params], [json], [headers]) is empty here. *)
Record t : Type := make {
  method : Method;
  url : string;
  params : list (string * Z);
  json : option JSON;
  headers : list (string * string);
  timeout : float
}.
End Request.

Module Response.
(** What the client reads of a [requests.Response]: [json] is the value
    [response.json()] returns, [None] when the body does not decode. *)
Record t : Type := make {
  status_code : Z;
  reason : string;
  url : string;
  text : string;
  json : option JSON
}.
End Response.

(** ** Exceptions *)

Inductive exn : Type :=
| ValueError (msg : string)
| JSONDecodeError
| AttributeError (msg : string)
| PermissionError (msg : string)
| FileNotFoundError (msg : string)
| HTTPError (msg : string) (response : Response.t)
| RequestException (msg : string).

(** [except ValueError]: [requests.exceptions.JSONDecodeError] derives from
    [json.JSONDecodeError], a [ValueError]. *)
Definition is_ValueError (e : exn) : bool :=
  match e with ValueError _ | JSONDecodeError => true | _ => false end.

(** [except requests.RequestException]: [HTTPError] and the decode error of
    [requests] derive from it. *)
Definition is_RequestException (e : exn) : bool :=
  match e with RequestException _ | HTTPError _ _ | JSONDecodeError => true | _ => false end.

Definition is_HTTPError (e : exn) : bool :=
  match e with HTTPError _ _ => true | _ => false end.

(** ** The monad of client computations *)

Inductive outcome (A : Type) : Type :=
| Return (a : A)
| Raise (e : exn).
Arguments Return {A} a.
Arguments Raise {A} e.

(** The requests sent so far, oldest first. *)
Definition Log : Type := list Request.t.

Definition Py (A : Type) : Type := Log -> outcome A * Log.

Definition ret {A} (a : A) : Py A := fun log => (Return a, log).

Definition raise {A} (e : exn) : Py A := fun log => (Raise e, log).

Definition bind {A B} (m : Py A) (k : A -> Py B) : Py B :=
  fun log =>
    match m log with
    | (Return a, log') => k a log'
    | (Raise e, log') => (Raise e, log')
    end.

(** [try: body  except cls as e: handler e]. *)
Definition try_except {A} (body : Py A) (cls : exn -> bool) (handler : exn -> Py A) : Py A :=
  fun log =>
    match body log with
    | (Return a, log') => (Return a, log')
    | (Raise e, log') => if cls e then handler e log' else (Raise e, log')
    end.

Declare Scope py_scope.
Delimit Scope py_scope with py.
Notation "x <- m ;; k" := (bind m (fun x => k))
  (at level 61, m at next level, right associativity) : py_scope.
Notation "m ;; k" := (bind m (fun _ => k))
  (at level 61, right associativity) : py_scope.
Local Open Scope py_scope.

(** What a computation returns or raises, and the log it leaves. *)
Definition result {A} (m : Py A) (log : Log) : outcome A := fst (m log).
Definition calls {A} (m : Py A) (log : Log) : Log := snd (m log).

(** A transport ([requests] itself or a [requests.Session]) answers a request
    with a response or raises; its answer may depend on what was sent before. *)
Definition Transport : Type := Log -> Request.t -> outcome Response.t.

Definition send (http : Transport) (rq : Request.t) : Py Response.t :=
  fun log => (http log rq, (log ++ [rq])%list).

(** [http.get(url, params=..., timeout=...)] and
    [http.post(url, json=..., headers=..., timeout=...)]. *)
Definition http_get (http : Transport) (url : string) (params : list (string * Z))
    (timeout : float) : Py Response.t :=
  send http (Request.make GET url params None [] timeout).

Definition http_post (http : Transport) (url : string) (json : JSON)
    (headers : list (string * string)) (timeout : float) : Py Response.t :=
  send http (Request.make POST url [] (Some json) headers timeout).

(** ** Methods of the objects the client uses *)

(** [response.json()]: the decoded body, or the decoding error of [requests],
    a [ValueError].  (What else a decoder may raise, such as a
    [RecursionError] on deeply nested JSON, is not modelled.) *)
Definition json (response : Response.t) : Py JSON :=
  match Response.json response with
  | Some v => ret v
  | None => raise JSONDecodeError
  end.

(** [response.raise_for_status()] of [requests]: an [HTTPError] for a status
    from 400 to 599, nothing otherwise. *)
Definition raise_for_status (response : Response.t) : Py unit :=
  let sc := Response.status_code response in
  if (400 <=? sc) && (sc <? 500) then
    raise (HTTPError (str_of_int sc ++ " Client Error: " ++ Response.reason response
                      ++ " for url: " ++ Response.url response) response)
  else if (500 <=? sc) && (sc <? 600) then
    raise (HTTPError (str_of_int sc ++ " Server Error: " ++ Response.reason response
                      ++ " for url: " ++ Response.url response) response)
  else ret tt.

(** [obj.get(key)]: [dict.get] gives the value or [None]; no other JSON value
    has a [get] attribute. *)
Definition get (obj : JSON) (key : string) : Py JSON :=
  match obj with
  | JObject fields => ret (dict_get fields key)
  | _ => raise (AttributeError ("'" ++ type_name obj ++ "' object has no attribute 'get'"))
  end.

(** [a or b]: [b] is evaluated only when [a] is false. *)
Definition py_or (a b : Py JSON) : Py JSON :=
  x <- a ;; if truthy x then ret x else b.

Definition default_base_url : string := "http://localhost:8000".
Definition default_timeout_seconds : float := 10%float.

(** ** The client *)

Section Client.

(** The module-level [requests.get] and [requests.post], used when no
    session is given. *)
Variable requests : Transport.

(** [repr] of the objects whose text is not spelled out below (floats and
    containers); the client only pastes it into messages. *)
Variable repr : JSON -> string.

(** [str(v)], as an f-string formats a value. *)
Definition str (v : JSON) : string :=
  match v with
  | JString s => s
  | JNull => "None"
  | JBool true => "True"
  | JBool false => "False"
  | JInt n => str_of_int n
  | _ => repr v
  end.

(** [session or requests]. *)
Definition session_or_requests (session : option Transport) : Transport :=
  match session with
  | Some s => s
  | None => requests
  end.

Definition register_user (username password : string) (base_url : string)
    (timeout_seconds : float) (session : option Transport) : Py JSON :=
  if negb (truthy (JString username)) then
    raise (ValueError "username must be a non-empty string")
  else if negb (truthy (JString password)) then
    raise (ValueError "password must be a non-empty string")
  else
    let url := rstrip "/" base_url ++ "/register" in
    let payload := JObject [("username", JString username); ("password", JString password)] in
    let http := session_or_requests session in
    response <- try_except (http_post http url payload [] timeout_seconds)
                  is_RequestException (fun request_error => raise request_error) ;;
    if Response.status_code response =? 200 then
      try_except (json response) is_ValueError
        (fun json_error =>
           raise (HTTPError ("Expected JSON response from " ++ url ++ ", but failed to parse.")
                    response))
    else if Response.status_code response =? 400 then
      error_message <-
        try_except
          (error_json <- json response ;;
           py_or (py_or (get error_json "detail") (get error_json "message"))
                 (ret (JString (Response.text response))))
          is_ValueError
          (fun _ => ret (JString (Response.text response))) ;;
      raise (ValueError ("Registration failed (400): " ++ str error_message))
    else
      try_except (raise_for_status response) is_HTTPError
        (fun http_error => raise http_error) ;;
      try_except (json response) is_ValueError
        (fun _ => ret (JObject [("status_code", JInt (Response.status_code response));
                                ("content", JString (Response.text response))])).

Definition get_polls (skip limit : Z) (base_url : string)
    (timeout_seconds : float) (session : option Transport) : Py JSON :=
  if skip <? 0 then
    raise (ValueError "skip must be a non-negative integer")
  else if limit <=? 0 then
    raise (ValueError "limit must be a positive integer")
  else
    let url := rstrip "/" base_url ++ "/polls" in
    let params := [("skip", skip); ("limit", limit)] in
    let http := session_or_requests session in
    response <- try_except (http_get http url params timeout_seconds)
                  is_RequestException (fun request_error => raise request_error) ;;
    if Response.status_code response =? 200 then
      data <- try_except (json response) is_ValueError
                (fun json_error =>
                   raise (HTTPError ("Expected JSON array from " ++ Response.url response
                                     ++ ", but failed to parse.") response)) ;;
      if negb (is_list data) then
        raise (ValueError "Expected response to be a JSON array of polls")
      else ret data
    else
      raise_for_status response ;;
      try_except (json response) is_ValueError
        (fun _ => ret (JObject [("status_code", JInt (Response.status_code response));
                                ("content", JString (Response.text response))])).

Definition vote_on_poll (poll_id option_id : Z) (token : string) (base_url : string)
    (timeout_seconds : float) (session : option Transport) : Py JSON :=
  if poll_id <=? 0 then
    raise (ValueError "poll_id must be a positive integer")
  else if option_id <=? 0 then
    raise (ValueError "option_id must be a positive integer")
  else if negb (truthy (JString token)) then
    raise (ValueError "token must be a non-empty string")
  else
    let url := rstrip "/" base_url ++ "/polls/" ++ str_of_int poll_id ++ "/vote" in
    let payload := JObject [("option_id", JInt option_id)] in
    let headers := [("Authorization", "Bearer " ++ token)] in
    let http := session_or_requests session in
    response <- try_except (http_post http url payload headers timeout_seconds)
                  is_RequestException (fun request_error => raise request_error) ;;
    if Response.status_code response =? 200 then
      try_except (json response) is_ValueError
        (fun json_error =>
           raise (HTTPError ("Expected JSON VoteOut from " ++ Response.url response
                             ++ ", but failed to parse.") response))
    else if Response.status_code response =? 401 then
      raise (PermissionError "Unauthorized: missing or invalid token")
    else if Response.status_code response =? 404 then
      detail <-
        try_except
          (err_json <- json response ;;
           py_or (get err_json "detail") (get err_json "message"))
          is_ValueError
          (fun _ => ret JNull) ;;
      let message :=
        if truthy detail then "Not found: " ++ str detail else "Not found: poll or option" in
      raise (FileNotFoundError message)
    else
      raise_for_status response ;;
      try_except (json response) is_ValueError
        (fun _ => ret (JObject [("status_code", JInt (Response.status_code response));
                                ("content", JString (Response.text response))])).

Definition get_poll_results (poll_id : Z) (base_url : string)
    (timeout_seconds : float) (session : option Transport) : Py JSON :=
  if poll_id <=? 0 then
    raise (ValueError "poll_id must be a positive integer")
  else
    let url := rstrip "/" base_url ++ "/polls/" ++ str_of_int poll_id ++ "/results" in
    let http := session_or_requests session in
    response <- try_except (http_get http url [] timeout_seconds)
                  is_RequestException (fun request_error => raise request_error) ;;
    if Response.status_code response =? 200 then
      data <- try_except (json response) is_ValueError
                (fun json_error =>
                   raise (HTTPError ("Expected JSON PollResults from " ++ Response.url response
                                     ++ ", but failed to parse.") response)) ;;
      if negb (is_dict data) then
        raise (ValueError "Expected response to be a JSON object for poll results")
      else ret data
    else if Response.status_code response =? 404 then
      detail <-
        try_except
          (err_json <- json response ;;
           py_or (get err_json "detail") (get err_json "message"))
          is_ValueError
          (fun _ => ret JNull) ;;
      let message :=
        if truthy detail then "Poll not found: " ++ str detail else "Poll not found" in
      raise (FileNotFoundError message)
    else
      raise_for_status response ;;
      try_except (json response) is_ValueError
        (fun _ => ret (JObject [("status_code", JInt (Response.status_code response));
                                ("content", JString (Response.text response))])).

End Client.

(** ** Transports and responses for concrete runs *)

(** A transport that answers every request with the same response. *)
Definition mock (response : Response.t) : Transport := fun _ _ => Return response.

(** A transport that cannot reach the server. *)
Definition offline : Transport := fun _ _ => Raise (RequestException "connection refused").

(** A [repr] for runs whose messages never format a float or a container. *)
Definition repr_type (v : JSON) : string := "<" ++ type_name v ++ ">".

(** The same response with another decoded body. *)
Definition with_body (response : Response.t) (body : option JSON) : Response.t :=
  Response.make (Response.status_code response) (Response.reason response)
    (Response.url response) (Response.text response) body.

(** A response with the given status, raw text and decoded body. *)
Definition reply (status : Z) (text : string) (body : option JSON) : Response.t :=
  Response.make status "" "http://localhost:8000/" text body.

(** The text of a JSON string literal without escapes. *)
Definition quoted (s : string) : string :=
  String "034"%char s ++ String "034"%char "".

(** Bodies of the answers used below, with their raw text. *)
Definition user_alice : JSON := JObject [("id", JInt 1); ("username", JString "alice")].
Definition user_alice_text : string :=
  "{" ++ quoted "id" ++ ": 1, " ++ quoted "username" ++ ": " ++ quoted "alice" ++ "}".

Definition polls_page : JSON := JArray [JObject [("id", JInt 1); ("title", JString "Q")]].
Definition polls_page_text : string :=
  "[{" ++ quoted "id" ++ ": 1, " ++ quoted "title" ++ ": " ++ quoted "Q" ++ "}]".

Definition detail_body (detail : string) : JSON := JObject [("detail", JString detail)].
Definition detail_body_text (detail : string) : string :=
  "{" ++ quoted "detail" ++ ": " ++ quoted detail ++ "}".

Definition empty_detail_body : JSON :=
  JObject [("detail", JString ""); ("message", JString "gone")].
Definition empty_detail_body_text : string :=
  "{" ++ quoted "detail" ++ ": " ++ quoted "" ++ ", "
      ++ quoted "message" ++ ": " ++ quoted "gone" ++ "}".

(** [c * n]: the string of [n] copies of a character. *)
Fixpoint copies (n : nat) (c : ascii) : string :=
  match n with
  | O => EmptyString
  | S n' => String c (copies n' c)
  end.

(** [s.endswith(c)] for a one-character argument. *)
Fixpoint ends_with (c : ascii) (s : string) : bool :=
  match s with
  | EmptyString => false
  | String a EmptyString => Ascii.eqb a c
  | String _ rest => ends_with c rest
  end.

(** The request each function hands to the transport. *)
Definition register_request (username password base_url : string)
    (timeout_seconds : float) : Request.t :=
  Request.make POST (rstrip "/" base_url ++ "/register") []
    (Some (JObject [("username", JString username); ("password", JString password)]))
    [] timeout_seconds.

Definition polls_request (skip limit : Z) (base_url : string)
    (timeout_seconds : float) : Request.t :=
  Request.make GET (rstrip "/" base_url ++ "/polls") [("skip", skip); ("limit", limit)]
    None [] timeout_seconds.

Definition vote_request (poll_id option_id : Z) (token base_url : string)
    (timeout_seconds : float) : Request.t :=
  Request.make POST (rstrip "/" base_url ++ "/polls/" ++ str_of_int poll_id ++ "/vote") []
    (Some (JObject [("option_id", JInt option_id)]))
    [("Authorization", "Bearer " ++ token)] timeout_seconds.

Definition results_request (poll_id : Z) (base_url : string)
    (timeout_seconds : float) : Request.t :=
  Request.make GET (rstrip "/" base_url ++ "/polls/" ++ str_of_int poll_id ++ "/results") []
    None [] timeout_seconds.

(** After [log], the transport answers the request [rq] with [response]. *)
Definition answers (http : Transport) (log : Log) (rq : Request.t)
    (response : Response.t) : Prop :=
  http log rq = Return response.

(** * Properties *)

(** ** Helper lemmas *)

Lemma truthy_nonempty (s : string) : s <> "" -> truthy (JString s) = true.
Proof.
  intros Hs. simpl. apply negb_true_iff. now apply String.eqb_neq.
Qed.

Lemma truthy_empty_string : truthy (JString "") = false.
Proof. reflexivity. Qed.

Lemma dict_lookup_remove_same (fields : list (string * JSON)) (key : string) :
  dict_lookup (dict_remove fields key) key = None.
Proof.
  induction fields as [|[k v] rest IH]; simpl; [reflexivity|].
  destruct (String.eqb k key) eqn:E; [exact IH|].
  simpl. now rewrite E.
Qed.

Lemma dict_lookup_remove_other (fields : list (string * JSON)) (key other : string) :
  other <> key ->
  dict_lookup (dict_remove fields key) other = dict_lookup fields other.
Proof.
  intros Hne. induction fields as [|[k v] rest IH]; simpl; [reflexivity|].
  destruct (String.eqb k key) eqn:E.
  - apply String.eqb_eq in E. subst k.
    destruct (String.eqb key other) eqn:E'; [|exact IH].
    apply String.eqb_eq in E'. congruence.
  - simpl. now rewrite IH.
Qed.

Lemma dict_get_remove_same (fields : list (string * JSON)) (key : string) :
  dict_get (dict_remove fields key) key = JNull.
Proof.
  unfold dict_get. now rewrite dict_lookup_remove_same.
Qed.

Lemma dict_get_remove_other (fields : list (string * JSON)) (key other : string) :
  other <> key ->
  dict_get (dict_remove fields key) other = dict_get fields other.
Proof.
  intros Hne. unfold dict_get. now rewrite dict_lookup_remove_other.
Qed.

Lemma prefix_app (s rest : string) : String.prefix s (s ++ rest) = true.
Proof.
  induction s as [|a s IH]; simpl.
  - now destruct rest.
  - destruct (ascii_dec a a) as [_|Hne]; [exact IH|]. now elim Hne.
Qed.

Lemma append_empty (s : string) : s ++ "" = s.
Proof.
  induction s as [|a s IH]; simpl; [reflexivity|]. now rewrite IH.
Qed.

Lemma str_in_prefix (s rest : string) : str_in s (s ++ rest) = true.
Proof.
  destruct (s ++ rest) eqn:E; unfold str_in; fold str_in;
    rewrite <- E, prefix_app; reflexivity.
Qed.

Lemma str_in_app (before s : string) : str_in s (before ++ s) = true.
Proof.
  induction before as [|a before IH].
  - simpl. rewrite <- (append_empty s) at 2. apply str_in_prefix.
  - simpl. rewrite IH. apply orb_true_r.
Qed.

(** Unfolds the monad of a client computation down to its case analysis. *)
Ltac run_py :=
  cbv beta iota zeta delta
    [result calls bind try_except http_post http_get send json raise_for_status
     get py_or ret raise fst snd negb is_ValueError is_HTTPError is_RequestException].

(** Settles the comparisons of the status code from the hypotheses. *)
Ltac case_status :=
  repeat match goal with
    | |- context [Z.eqb (Response.status_code ?r) ?n] =>
        destruct (Z.eqb_spec (Response.status_code r) n); try lia
    | |- context [Z.leb ?n (Response.status_code ?r)] =>
        destruct (Z.leb_spec n (Response.status_code r)); try lia
    | |- context [Z.ltb (Response.status_code ?r) ?n] =>
        destruct (Z.ltb_spec (Response.status_code r) n); try lia
    end;
  cbv beta iota delta [andb].

(** Settles the argument checks from the hypotheses. *)
Ltac valid_args :=
  repeat match goal with
    | |- context [Z.leb ?a 0] => destruct (Z.leb_spec a 0); try lia
    | |- context [Z.ltb ?a 0] => destruct (Z.ltb_spec a 0); try lia
    | H : ?s <> EmptyString |- context [truthy (JString ?s)] =>
        rewrite (truthy_nonempty s H)
    end.

(** Runs a client function up to the answer [H] of the transport. *)
Ltac answered H :=
  valid_args; run_py;
  unfold answers, register_request, polls_request, vote_request, results_request in H;
  rewrite H; run_py.

(** Follows [d.get("detail") or d.get("message")] through its cases. *)
Ltac detail_cases fields :=
  let Hd := fresh "Hd" in
  let Hm := fresh "Hm" in
  destruct (truthy (dict_get fields "detail")) eqn:Hd; cbv beta iota;
  [ rewrite ?Hd; reflexivity
  | destruct (truthy (dict_get fields "message")) eqn:Hm; cbv beta iota;
    rewrite ?Hm; reflexivity ].

(** Splits on whatever a stuck [match] or [if] of the goal looks at. *)
Ltac split_cases :=
  repeat (match goal with
          | |- context [match ?x with _ => _ end] =>
              lazymatch x with
              | context [match _ with _ => _ end] => fail
              | _ => destruct x
              end
          end; cbv beta iota).

Section Properties.

Variable requests : Transport.
Variable repr : JSON -> string.

(** ** Local validation *)

(** C2: for [skip < 0] or [limit <= 0], [get_polls] raises the [ValueError]
    of its argument check and hands no request to the transport: the log of
    requests is left as it was. *)
Theorem get_polls_invalid_page_no_call
    (skip limit : Z) (base_url : string) (timeout_seconds : float)
    (session : option Transport) (log : Log) :
  skip < 0 \/ limit <= 0 ->
  result (get_polls requests skip limit base_url timeout_seconds session) log
    = Raise (ValueError (if skip <? 0 then "skip must be a non-negative integer"
                         else "limit must be a positive integer"))
  /\ calls (get_polls requests skip limit base_url timeout_seconds session) log = log.
Proof.
  intros Hbad. unfold get_polls.
  destruct (skip <? 0) eqn:Hs; [now run_py|].
  destruct (limit <=? 0) eqn:Hl; [now run_py|].
  apply Z.ltb_ge in Hs. apply Z.leb_gt in Hl. lia.
Qed.

(** C3: for [poll_id <= 0], [option_id <= 0] or an empty [token],
    [vote_on_poll] raises the [ValueError] of its argument check before
    anything is sent: the log of requests is left as it was. *)
Theorem vote_on_poll_invalid_args_no_call
    (poll_id option_id : Z) (token base_url : string) (timeout_seconds : float)
    (session : option Transport) (log : Log) :
  poll_id <= 0 \/ option_id <= 0 \/ token = "" ->
  result (vote_on_poll requests repr poll_id option_id token base_url
            timeout_seconds session) log
    = Raise (ValueError (if poll_id <=? 0 then "poll_id must be a positive integer"
                         else if option_id <=? 0 then "option_id must be a positive integer"
                         else "token must be a non-empty string"))
  /\ calls (vote_on_poll requests repr poll_id option_id token base_url
              timeout_seconds session) log = log.
Proof.
  intros Hbad. unfold vote_on_poll.
  destruct (poll_id <=? 0) eqn:Hp; [now run_py|].
  destruct (option_id <=? 0) eqn:Ho; [now run_py|].
  apply Z.leb_gt in Hp. apply Z.leb_gt in Ho.
  destruct Hbad as [H|[H|H]]; try lia.
  subst token. now run_py.
Qed.

(** ** One request per call *)

(** Once the arguments passed their check, each function hands exactly one
    request to the transport, whatever the answer. *)
Lemma register_user_sends
    (username password base_url : string) (timeout_seconds : float)
    (session : option Transport) (log : Log) :
  username <> "" -> password <> "" ->
  calls (register_user requests repr username password base_url timeout_seconds session) log
    = (log ++ [register_request username password base_url timeout_seconds])%list.
Proof.
  intros Hu Hp. unfold register_user, register_request.
  valid_args. run_py. split_cases; reflexivity.
Qed.

Lemma get_polls_sends
    (skip limit : Z) (base_url : string) (timeout_seconds : float)
    (session : option Transport) (log : Log) :
  0 <= skip -> 0 < limit ->
  calls (get_polls requests skip limit base_url timeout_seconds session) log
    = (log ++ [polls_request skip limit base_url timeout_seconds])%list.
Proof.
  intros Hs Hl. unfold get_polls, polls_request.
  valid_args. run_py. split_cases; reflexivity.
Qed.

Lemma vote_on_poll_sends
    (poll_id option_id : Z) (token base_url : string) (timeout_seconds : float)
    (session : option Transport) (log : Log) :
  0 < poll_id -> 0 < option_id -> token <> "" ->
  calls (vote_on_poll requests repr poll_id option_id token base_url
           timeout_seconds session) log
    = (log ++ [vote_request poll_id option_id token base_url timeout_seconds])%list.
Proof.
  intros Hp Ho Ht. unfold vote_on_poll, vote_request.
  valid_args. run_py. split_cases; reflexivity.
Qed.

Lemma get_poll_results_sends
    (poll_id : Z) (base_url : string) (timeout_seconds : float)
    (session : option Transport) (log : Log) :
  0 < poll_id ->
  calls (get_poll_results requests repr poll_id base_url timeout_seconds session) log
    = (log ++ [results_request poll_id base_url timeout_seconds])%list.
Proof.
  intros Hp. unfold get_poll_results, results_request.
  valid_args. run_py. split_cases; reflexivity.
Qed.

(** ** [register_user] *)

(** C1, as the code has it: a response to [register_user] with a status
    other than 200 and 400 raises the [HTTPError] of [raise_for_status],
    which carries the response, exactly when the status lies between 400
    and 599; with any other status (1xx, 3xx, another 2xx) nothing is raised
    and the decoded body, or else the dictionary of status code and text,
    is returned. *)
Theorem register_user_other_status
    (username password base_url : string) (timeout_seconds : float)
    (session : option Transport) (log : Log) (r : Response.t) :
  username <> "" -> password <> "" ->
  answers (session_or_requests requests session) log
    (register_request username password base_url timeout_seconds) r ->
  Response.status_code r <> 200 -> Response.status_code r <> 400 ->
  let out := result (register_user requests repr username password base_url
                       timeout_seconds session) log in
  (400 <= Response.status_code r < 600 -> exists msg, out = Raise (HTTPError msg r))
  /\ (~ 400 <= Response.status_code r < 600 ->
      out = Return (match Response.json r with
                    | Some v => v
                    | None => JObject [("status_code", JInt (Response.status_code r));
                                       ("content", JString (Response.text r))]
                    end)).
Proof.
  intros Hu Hp Hans H200 H400 out. subst out. unfold register_user.
  answered Hans.
  split; intros Hrange.
  - case_status; eexists; reflexivity.
  - case_status; destruct (Response.json r); reflexivity.
Qed.

(** A 400 whose body does not decode: the raw text goes into the message. *)
Lemma register_user_400_undecodable
    (username password base_url : string) (timeout_seconds : float)
    (session : option Transport) (log : Log) (r : Response.t) :
  username <> "" -> password <> "" ->
  answers (session_or_requests requests session) log
    (register_request username password base_url timeout_seconds) r ->
  Response.status_code r = 400 ->
  Response.json r = None ->
  result (register_user requests repr username password base_url
            timeout_seconds session) log
    = Raise (ValueError ("Registration failed (400): " ++ Response.text r)).
Proof.
  intros Hu Hp Hans H400 Hbody. unfold register_user.
  answered Hans. case_status. rewrite Hbody. reflexivity.
Qed.

(** A 400 whose body is a JSON object: [detail], else [message], else the
    raw text, each taken when it is true. *)
Lemma register_user_400_object
    (username password base_url : string) (timeout_seconds : float)
    (session : option Transport) (log : Log) (r : Response.t)
    (fields : list (string * JSON)) :
  username <> "" -> password <> "" ->
  answers (session_or_requests requests session) log
    (register_request username password base_url timeout_seconds) r ->
  Response.status_code r = 400 ->
  Response.json r = Some (JObject fields) ->
  result (register_user requests repr username password base_url
            timeout_seconds session) log
    = Raise (ValueError
               ("Registration failed (400): "
                ++ str repr (if truthy (dict_get fields "detail")
                             then dict_get fields "detail"
                             else if truthy (dict_get fields "message")
                                  then dict_get fields "message"
                                  else JString (Response.text r)))).
Proof.
  intros Hu Hp Hans H400 Hbody. unfold register_user.
  answered Hans. case_status. rewrite Hbody.
  detail_cases fields.
Qed.

(** A 400 whose body decodes to anything but an object: the [get] of the
    extraction raises [AttributeError], which [except ValueError] lets
    through. *)
Lemma register_user_400_not_object
    (username password base_url : string) (timeout_seconds : float)
    (session : option Transport) (log : Log) (r : Response.t) (v : JSON) :
  username <> "" -> password <> "" ->
  answers (session_or_requests requests session) log
    (register_request username password base_url timeout_seconds) r ->
  Response.status_code r = 400 ->
  Response.json r = Some v -> is_dict v = false ->
  result (register_user requests repr username password base_url
            timeout_seconds session) log
    = Raise (AttributeError ("'" ++ type_name v ++ "' object has no attribute 'get'")).
Proof.
  intros Hu Hp Hans H400 Hbody Hv. unfold register_user.
  answered Hans. case_status. rewrite Hbody.
  destruct v; try discriminate Hv; reflexivity.
Qed.

(** ** [vote_on_poll] *)

Lemma vote_on_poll_404_undecodable
    (poll_id option_id : Z) (token base_url : string) (timeout_seconds : float)
    (session : option Transport) (log : Log) (r : Response.t) :
  0 < poll_id -> 0 < option_id -> token <> "" ->
  answers (session_or_requests requests session) log
    (vote_request poll_id option_id token base_url timeout_seconds) r ->
  Response.status_code r = 404 ->
  Response.json r = None ->
  result (vote_on_poll requests repr poll_id option_id token base_url
            timeout_seconds session) log
    = Raise (FileNotFoundError "Not found: poll or option").
Proof.
  intros Hp Ho Ht Hans H404 Hbody. unfold vote_on_poll.
  answered Hans. case_status. rewrite Hbody. reflexivity.
Qed.

Lemma vote_on_poll_404_object
    (poll_id option_id : Z) (token base_url : string) (timeout_seconds : float)
    (session : option Transport) (log : Log) (r : Response.t)
    (fields : list (string * JSON)) :
  0 < poll_id -> 0 < option_id -> token <> "" ->
  answers (session_or_requests requests session) log
    (vote_request poll_id option_id token base_url timeout_seconds) r ->
  Response.status_code r = 404 ->
  Response.json r = Some (JObject fields) ->
  result (vote_on_poll requests repr poll_id option_id token base_url
            timeout_seconds session) log
    = Raise (FileNotFoundError
               (if truthy (dict_get fields "detail")
                then "Not found: " ++ str repr (dict_get fields "detail")
                else if truthy (dict_get fields "message")
                     then "Not found: " ++ str repr (dict_get fields "message")
                     else "Not found: poll or option")).
Proof.
  intros Hp Ho Ht Hans H404 Hbody. unfold vote_on_poll.
  answered Hans. case_status. rewrite Hbody.
  detail_cases fields.
Qed.

Lemma vote_on_poll_404_not_object
    (poll_id option_id : Z) (token base_url : string) (timeout_seconds : float)
    (session : option Transport) (log : Log) (r : Response.t) (v : JSON) :
  0 < poll_id -> 0 < option_id -> token <> "" ->
  answers (session_or_requests requests session) log
    (vote_request poll_id option_id token base_url timeout_seconds) r ->
  Response.status_code r = 404 ->
  Response.json r = Some v -> is_dict v = false ->
  result (vote_on_poll requests repr poll_id option_id token base_url
            timeout_seconds session) log
    = Raise (AttributeError ("'" ++ type_name v ++ "' object has no attribute 'get'")).
Proof.
  intros Hp Ho Ht Hans H404 Hbody Hv. unfold vote_on_poll.
  answered Hans. case_status. rewrite Hbody.
  destruct v; try discriminate Hv; reflexivity.
Qed.

(** ** [get_poll_results] *)

Lemma get_poll_results_404_undecodable
    (poll_id : Z) (base_url : string) (timeout_seconds : float)
    (session : option Transport) (log : Log) (r : Response.t) :
  0 < poll_id ->
  answers (session_or_requests requests session) log
    (results_request poll_id base_url timeout_seconds) r ->
  Response.status_code r = 404 ->
  Response.json r = None ->
  result (get_poll_results requests repr poll_id base_url timeout_seconds session) log
    = Raise (FileNotFoundError "Poll not found").
Proof.
  intros Hp Hans H404 Hbody. unfold get_poll_results.
  answered Hans. case_status. rewrite Hbody. reflexivity.
Qed.

Lemma get_poll_results_404_object
    (poll_id : Z) (base_url : string) (timeout_seconds : float)
    (session : option Transport) (log : Log) (r : Response.t)
    (fields : list (string * JSON)) :
  0 < poll_id ->
  answers (session_or_requests requests session) log
    (results_request poll_id base_url timeout_seconds) r ->
  Response.status_code r = 404 ->
  Response.json r = Some (JObject fields) ->
  result (get_poll_results requests repr poll_id base_url timeout_seconds session) log
    = Raise (FileNotFoundError
               (if truthy (dict_get fields "detail")
                then "Poll not found: " ++ str repr (dict_get fields "detail")
                else if truthy (dict_get fields "message")
                     then "Poll not found: " ++ str repr (dict_get fields "message")
                     else "Poll not found")).
Proof.
  intros Hp Hans H404 Hbody. unfold get_poll_results.
  answered Hans. case_status. rewrite Hbody.
  detail_cases fields.
Qed.

Lemma get_poll_results_404_not_object
    (poll_id : Z) (base_url : string) (timeout_seconds : float)
    (session : option Transport) (log : Log) (r : Response.t) (v : JSON) :
  0 < poll_id ->
  answers (session_or_requests requests session) log
    (results_request poll_id base_url timeout_seconds) r ->
  Response.status_code r = 404 ->
  Response.json r = Some v -> is_dict v = false ->
  result (get_poll_results requests repr poll_id base_url timeout_seconds session) log
    = Raise (AttributeError ("'" ++ type_name v ++ "' object has no attribute 'get'")).
Proof.
  intros Hp Hans H404 Hbody Hv. unfold get_poll_results.
  answered Hans. case_status. rewrite Hbody.
  destruct v; try discriminate Hv; reflexivity.
Qed.

(** ** Status 200 *)

(** C6: on a 200 whose body decodes to something other than an array,
    [get_polls] raises the [ValueError] that asks for a JSON array of polls;
    on a 200 whose body does not decode, it raises the [HTTPError] that
    reports the failed parse.  Both are the protocol errors of the listing. *)
Theorem get_polls_200_protocol_error
    (skip limit : Z) (base_url : string) (timeout_seconds : float)
    (session : option Transport) (log : Log) (r : Response.t) :
  0 <= skip -> 0 < limit ->
  answers (session_or_requests requests session) log
    (polls_request skip limit base_url timeout_seconds) r ->
  Response.status_code r = 200 ->
  (forall v, Response.json r = Some v -> is_list v = false ->
     result (get_polls requests skip limit base_url timeout_seconds session) log
       = Raise (ValueError "Expected response to be a JSON array of polls"))
  /\ (Response.json r = None ->
      result (get_polls requests skip limit base_url timeout_seconds session) log
        = Raise (HTTPError ("Expected JSON array from " ++ Response.url r
                            ++ ", but failed to parse.") r)).
Proof.
  intros Hs Hl Hans H200. unfold get_polls.
  answered Hans. case_status.
  split.
  - intros v Hbody Hv. rewrite Hbody. cbv beta iota. rewrite Hv. reflexivity.
  - intros Hbody. rewrite Hbody. reflexivity.
Qed.

(** C8: a 200 whose body decodes is answered with the decoded value itself:
    [register_user] and [vote_on_poll] return it as it is, [get_polls]
    returns the decoded array as it is, and [get_poll_results] the decoded
    object. *)
Theorem success_body_returned_unchanged (r : Response.t) (v : JSON) :
  Response.status_code r = 200 -> Response.json r = Some v ->
  (forall username password base_url timeout_seconds session log,
      username <> "" -> password <> "" ->
      answers (session_or_requests requests session) log
        (register_request username password base_url timeout_seconds) r ->
      result (register_user requests repr username password base_url
                timeout_seconds session) log = Return v)
  /\ (forall poll_id option_id token base_url timeout_seconds session log,
      0 < poll_id -> 0 < option_id -> token <> "" ->
      answers (session_or_requests requests session) log
        (vote_request poll_id option_id token base_url timeout_seconds) r ->
      result (vote_on_poll requests repr poll_id option_id token base_url
                timeout_seconds session) log = Return v)
  /\ (forall skip limit base_url timeout_seconds session log,
      0 <= skip -> 0 < limit ->
      answers (session_or_requests requests session) log
        (polls_request skip limit base_url timeout_seconds) r ->
      is_list v = true ->
      result (get_polls requests skip limit base_url timeout_seconds session) log
        = Return v)
  /\ (forall poll_id base_url timeout_seconds session log,
      0 < poll_id ->
      answers (session_or_requests requests session) log
        (results_request poll_id base_url timeout_seconds) r ->
      is_dict v = true ->
      result (get_poll_results requests repr poll_id base_url timeout_seconds session) log
        = Return v).
Proof.
  intros H200 Hbody. repeat split.
  - intros username password base_url timeout_seconds session log Hu Hp Hans.
    unfold register_user. answered Hans. case_status. rewrite Hbody. reflexivity.
  - intros poll_id option_id token base_url timeout_seconds session log Hp Ho Ht Hans.
    unfold vote_on_poll. answered Hans. case_status. rewrite Hbody. reflexivity.
  - intros skip limit base_url timeout_seconds session log Hs Hl Hans Hv.
    unfold get_polls. answered Hans. case_status. rewrite Hbody.
    cbv beta iota. rewrite Hv. reflexivity.
  - intros poll_id base_url timeout_seconds session log Hp Hans Hv.
    unfold get_poll_results. answered Hans. case_status. rewrite Hbody.
    cbv beta iota. rewrite Hv. reflexivity.
Qed.

(** C9: on a 200, [register_user] and [vote_on_poll] return whatever the
    body decodes to, with no test of its kind: an object comes back, and so
    does a value that is not an object (a number, a string, an array), while
    [get_poll_results] rejects a value that is not an object with the
    [ValueError] that asks for a JSON object. *)
Theorem success_body_shape_unchecked (r : Response.t) (v : JSON) :
  Response.status_code r = 200 -> Response.json r = Some v ->
  (forall username password base_url timeout_seconds session log,
      username <> "" -> password <> "" ->
      answers (session_or_requests requests session) log
        (register_request username password base_url timeout_seconds) r ->
      result (register_user requests repr username password base_url
                timeout_seconds session) log = Return v)
  /\ (forall poll_id option_id token base_url timeout_seconds session log,
      0 < poll_id -> 0 < option_id -> token <> "" ->
      answers (session_or_requests requests session) log
        (vote_request poll_id option_id token base_url timeout_seconds) r ->
      result (vote_on_poll requests repr poll_id option_id token base_url
                timeout_seconds session) log = Return v)
  /\ (is_dict v = false ->
      forall poll_id base_url timeout_seconds session log,
      0 < poll_id ->
      answers (session_or_requests requests session) log
        (results_request poll_id base_url timeout_seconds) r ->
      result (get_poll_results requests repr poll_id base_url timeout_seconds session) log
        = Raise (ValueError "Expected response to be a JSON object for poll results")).
Proof.
  intros H200 Hbody. split; [|split].
  - intros username password base_url timeout_seconds session log Hu Hp Hans.
    unfold register_user. answered Hans. case_status. rewrite Hbody. reflexivity.
  - intros poll_id option_id token base_url timeout_seconds session log Hp Ho Ht Hans.
    unfold vote_on_poll. answered Hans. case_status. rewrite Hbody. reflexivity.
  - intros Hv poll_id base_url timeout_seconds session log Hp Hans.
    unfold get_poll_results. answered Hans. case_status. rewrite Hbody.
    cbv beta iota. rewrite Hv. reflexivity.
Qed.

(** ** Extraction of the error detail *)

(** C5, as the code has it: a 404 answer to [vote_on_poll] whose body does
    not decode, or decodes to an object, raises [FileNotFoundError]; the
    message is ["Not found: "] followed by the [detail] field when that is
    true, else by the [message] field when that is true, and otherwise it is
    the generic ["Not found: poll or option"]. *)
Theorem vote_on_poll_404_not_found
    (poll_id option_id : Z) (token base_url : string) (timeout_seconds : float)
    (session : option Transport) (log : Log) (r : Response.t) :
  0 < poll_id -> 0 < option_id -> token <> "" ->
  answers (session_or_requests requests session) log
    (vote_request poll_id option_id token base_url timeout_seconds) r ->
  Response.status_code r = 404 ->
  (Response.json r = None ->
     result (vote_on_poll requests repr poll_id option_id token base_url
               timeout_seconds session) log
       = Raise (FileNotFoundError "Not found: poll or option"))
  /\ (forall fields, Response.json r = Some (JObject fields) ->
      result (vote_on_poll requests repr poll_id option_id token base_url
                timeout_seconds session) log
        = Raise (FileNotFoundError
                   (if truthy (dict_get fields "detail")
                    then "Not found: " ++ str repr (dict_get fields "detail")
                    else if truthy (dict_get fields "message")
                         then "Not found: " ++ str repr (dict_get fields "message")
                         else "Not found: poll or option"))).
Proof.
  intros Hp Ho Ht Hans H404. split.
  - intros Hbody. now apply vote_on_poll_404_undecodable with (r := r).
  - intros fields Hbody. now apply vote_on_poll_404_object with (r := r).
Qed.

(** C10: the extraction goes by truth value, not by presence.  When the
    [detail] field of the body is there but false (the empty string, for
    one), the 400 path of [register_user] and the 404 paths of
    [vote_on_poll] and [get_poll_results] go on to the [message] field, and
    from there to the raw text ([register_user]) or to the generic message
    (the other two); each raises just what it raises for the same body
    without its [detail] field. *)
Theorem falsy_detail_treated_as_absent
    (fields : list (string * JSON)) (falsy : JSON) (r : Response.t) :
  dict_lookup fields "detail" = Some falsy -> truthy falsy = false ->
  Response.json r = Some (JObject fields) ->
  let message := dict_get fields "message" in
  let r' := with_body r (Some (JObject (dict_remove fields "detail"))) in
  (forall username password base_url timeout_seconds session session' log,
      username <> "" -> password <> "" ->
      Response.status_code r = 400 ->
      answers (session_or_requests requests session) log
        (register_request username password base_url timeout_seconds) r ->
      answers (session_or_requests requests session') log
        (register_request username password base_url timeout_seconds) r' ->
      result (register_user requests repr username password base_url
                timeout_seconds session) log
        = Raise (ValueError ("Registration failed (400): "
                             ++ str repr (if truthy message then message
                                          else JString (Response.text r))))
      /\ result (register_user requests repr username password base_url
                   timeout_seconds session') log
         = result (register_user requests repr username password base_url
                     timeout_seconds session) log)
  /\ (forall poll_id option_id token base_url timeout_seconds session session' log,
      0 < poll_id -> 0 < option_id -> token <> "" ->
      Response.status_code r = 404 ->
      answers (session_or_requests requests session) log
        (vote_request poll_id option_id token base_url timeout_seconds) r ->
      answers (session_or_requests requests session') log
        (vote_request poll_id option_id token base_url timeout_seconds) r' ->
      result (vote_on_poll requests repr poll_id option_id token base_url
                timeout_seconds session) log
        = Raise (FileNotFoundError
                   (if truthy message then "Not found: " ++ str repr message
                    else "Not found: poll or option"))
      /\ result (vote_on_poll requests repr poll_id option_id token base_url
                   timeout_seconds session') log
         = result (vote_on_poll requests repr poll_id option_id token base_url
                     timeout_seconds session) log)
  /\ (forall poll_id base_url timeout_seconds session session' log,
      0 < poll_id ->
      Response.status_code r = 404 ->
      answers (session_or_requests requests session) log
        (results_request poll_id base_url timeout_seconds) r ->
      answers (session_or_requests requests session') log
        (results_request poll_id base_url timeout_seconds) r' ->
      result (get_poll_results requests repr poll_id base_url timeout_seconds session) log
        = Raise (FileNotFoundError
                   (if truthy message then "Poll not found: " ++ str repr message
                    else "Poll not found"))
      /\ result (get_poll_results requests repr poll_id base_url timeout_seconds
                   session') log
         = result (get_poll_results requests repr poll_id base_url timeout_seconds
                     session) log).
Proof.
  intros Hdetail Hfalsy Hbody message r'.
  assert (Hd : truthy (dict_get fields "detail") = false).
  { unfold dict_get. now rewrite Hdetail. }
  assert (Hbody' : Response.json r' = Some (JObject (dict_remove fields "detail")))
    by reflexivity.
  assert (Hd' : truthy (dict_get (dict_remove fields "detail") "detail") = false).
  { now rewrite dict_get_remove_same. }
  assert (Hm' : dict_get (dict_remove fields "detail") "message" = message).
  { apply dict_get_remove_other. discriminate. }
  assert (Hstatus : Response.status_code r' = Response.status_code r) by reflexivity.
  assert (Htext : Response.text r' = Response.text r) by reflexivity.
  split; [|split].
  - intros username password base_url timeout_seconds session session' log
      Hu Hp H400 Hans Hans'.
    rewrite (register_user_400_object _ _ _ _ session' _ r' (dict_remove fields "detail") Hu Hp Hans')
      by congruence.
    rewrite (register_user_400_object _ _ _ _ session _ r fields Hu Hp Hans)
      by assumption.
    rewrite Hd, Hd', Hm', Htext. split; reflexivity.
  - intros poll_id option_id token base_url timeout_seconds session session' log
      Hp Ho Ht H404 Hans Hans'.
    rewrite (vote_on_poll_404_object _ _ _ _ _ session' _ r' (dict_remove fields "detail") Hp Ho Ht Hans')
      by congruence.
    rewrite (vote_on_poll_404_object _ _ _ _ _ session _ r fields Hp Ho Ht Hans)
      by assumption.
    rewrite Hd, Hd', Hm'. split; reflexivity.
  - intros poll_id base_url timeout_seconds session session' log
      Hp H404 Hans Hans'.
    rewrite (get_poll_results_404_object _ _ _ session' _ r' (dict_remove fields "detail") Hp Hans')
      by congruence.
    rewrite (get_poll_results_404_object _ _ _ session _ r fields Hp Hans)
      by assumption.
    rewrite Hd, Hd', Hm'. split; reflexivity.
Qed.

(** A true [detail] string of a JSON object is part of the message that
    the 400 path of [register_user] and the 404 paths of [vote_on_poll] and
    [get_poll_results] raise. *)
Lemma detail_string_in_message
    (fields : list (string * JSON)) (detail : string) (r : Response.t) :
  dict_get fields "detail" = JString detail -> detail <> "" ->
  Response.json r = Some (JObject fields) ->
  (forall username password base_url timeout_seconds session log,
      username <> "" -> password <> "" ->
      Response.status_code r = 400 ->
      answers (session_or_requests requests session) log
        (register_request username password base_url timeout_seconds) r ->
      exists msg,
        result (register_user requests repr username password base_url
                  timeout_seconds session) log = Raise (ValueError msg)
        /\ str_in detail msg = true)
  /\ (forall poll_id option_id token base_url timeout_seconds session log,
      0 < poll_id -> 0 < option_id -> token <> "" ->
      Response.status_code r = 404 ->
      answers (session_or_requests requests session) log
        (vote_request poll_id option_id token base_url timeout_seconds) r ->
      exists msg,
        result (vote_on_poll requests repr poll_id option_id token base_url
                  timeout_seconds session) log = Raise (FileNotFoundError msg)
        /\ str_in detail msg = true)
  /\ (forall poll_id base_url timeout_seconds session log,
      0 < poll_id ->
      Response.status_code r = 404 ->
      answers (session_or_requests requests session) log
        (results_request poll_id base_url timeout_seconds) r ->
      exists msg,
        result (get_poll_results requests repr poll_id base_url timeout_seconds
                  session) log = Raise (FileNotFoundError msg)
        /\ str_in detail msg = true).
Proof.
  intros Hdetail Hne Hbody.
  assert (Hd : truthy (dict_get fields "detail") = true).
  { rewrite Hdetail. now apply truthy_nonempty. }
  split; [|split].
  - intros username password base_url timeout_seconds session log Hu Hp H400 Hans.
    rewrite (register_user_400_object _ _ _ _ session _ r fields Hu Hp Hans)
      by assumption.
    rewrite Hd, Hdetail. eexists. split; [reflexivity|]. apply str_in_app.
  - intros poll_id option_id token base_url timeout_seconds session log
      Hp Ho Ht H404 Hans.
    rewrite (vote_on_poll_404_object _ _ _ _ _ session _ r fields Hp Ho Ht Hans)
      by assumption.
    rewrite Hd, Hdetail. eexists. split; [reflexivity|]. apply str_in_app.
  - intros poll_id base_url timeout_seconds session log Hp H404 Hans.
    rewrite (get_poll_results_404_object _ _ _ session _ r fields Hp Hans)
      by assumption.
    rewrite Hd, Hdetail. eexists. split; [reflexivity|]. apply str_in_app.
Qed.

End Properties.

(** * Concrete runs *)

(** ** Runs at which the code leaves the specification *)

(** A 302 answer to [register_user] raises nothing: the dictionary of status
    code and text comes back as an ordinary value. *)
Lemma register_user_302_counterexample :
  ~ 200 <= Response.status_code (reply 302 "" None) < 300
  /\ Response.status_code (reply 302 "" None) <> 400
  /\ result (register_user offline repr_type "alice" "secret" default_base_url
               default_timeout_seconds (Some (mock (reply 302 "" None)))) []
     = Return (JObject [("status_code", JInt 302); ("content", JString "")])
  /\ (forall msg response,
        result (register_user offline repr_type "alice" "secret" default_base_url
                  default_timeout_seconds (Some (mock (reply 302 "" None)))) []
        <> Raise (HTTPError msg response)).
Proof.
  repeat split; try (simpl; lia); try reflexivity.
  intros msg response. vm_compute. discriminate.
Qed.

(** The generic message of [vote_on_poll] on a 404 is
    ["Not found: poll or option"]; the text ["poll or option not found"] is
    neither that message nor a part of it. *)
Lemma vote_on_poll_404_generic_counterexample :
  result (vote_on_poll offline repr_type 5 1 "tok" default_base_url
            default_timeout_seconds (Some (mock (reply 404 "" None)))) []
    = Raise (FileNotFoundError "Not found: poll or option")
  /\ result (vote_on_poll offline repr_type 5 1 "tok" default_base_url
               default_timeout_seconds (Some (mock (reply 404 "" None)))) []
     <> Raise (FileNotFoundError "poll or option not found")
  /\ str_in "poll or option not found" "Not found: poll or option" = false.
Proof.
  repeat split; try reflexivity.
  vm_compute. discriminate.
Qed.

(** C4: a 400 answer to [register_user] whose body is the JSON array [[]]
    ends in an [AttributeError] from the extraction of the message, not in
    the [ValueError] of a failed registration. *)
Theorem register_user_400_array_attribute_error :
  result (register_user offline repr_type "alice" "secret" default_base_url
            default_timeout_seconds (Some (mock (reply 400 "[]" (Some (JArray []))))))
    []
  = Raise (AttributeError "'list' object has no attribute 'get'").
Proof. reflexivity. Qed.

(** C7: a 404 answer to [get_poll_results] whose body is the JSON value
    [null] ends in an [AttributeError] from the extraction of the detail, not
    in [FileNotFoundError]. *)
Theorem get_poll_results_404_null_attribute_error :
  result (get_poll_results offline repr_type 5 default_base_url
            default_timeout_seconds (Some (mock (reply 404 "null" (Some JNull)))))
    []
  = Raise (AttributeError "'NoneType' object has no attribute 'get'").
Proof. reflexivity. Qed.

(** ** Runs on the answers of the server's documentation *)

Example register_user_returns_user :
  register_user offline repr_type "alice" "secret" default_base_url default_timeout_seconds
    (Some (mock (reply 200 user_alice_text (Some user_alice)))) []
  = (Return user_alice,
     [Request.make POST "http://localhost:8000/register" []
        (Some (JObject [("username", JString "alice"); ("password", JString "secret")]))
        [] default_timeout_seconds]).
Proof. reflexivity. Qed.

Example register_user_username_taken :
  result (register_user offline repr_type "alice" "secret" default_base_url
            default_timeout_seconds
            (Some (mock (reply 400 (detail_body_text "Username already registered")
                           (Some (detail_body "Username already registered")))))) []
  = Raise (ValueError "Registration failed (400): Username already registered")
  /\ str_in "Username already registered"
       "Registration failed (400): Username already registered" = true.
Proof. split; reflexivity. Qed.

Example get_polls_returns_page :
  get_polls offline 0 10 default_base_url default_timeout_seconds
    (Some (mock (reply 200 polls_page_text (Some polls_page)))) []
  = (Return polls_page,
     [Request.make GET "http://localhost:8000/polls" [("skip", 0); ("limit", 10)]
        None [] default_timeout_seconds]).
Proof. reflexivity. Qed.

Example vote_on_poll_unauthorized :
  vote_on_poll offline repr_type 5 1 "tok" "http://localhost:8000/" default_timeout_seconds
    (Some (mock (reply 401 "" None))) []
  = (Raise (PermissionError "Unauthorized: missing or invalid token"),
     [Request.make POST "http://localhost:8000/polls/5/vote" []
        (Some (JObject [("option_id", JInt 1)]))
        [("Authorization", "Bearer tok")] default_timeout_seconds]).
Proof. reflexivity. Qed.

Example get_poll_results_poll_missing :
  result (get_poll_results offline repr_type 5 default_base_url default_timeout_seconds
            (Some (mock (reply 404 (detail_body_text "poll missing")
                           (Some (detail_body "poll missing")))))) []
  = Raise (FileNotFoundError "Poll not found: poll missing")
  /\ str_in "poll missing" "Poll not found: poll missing" = true.
Proof. split; reflexivity. Qed.

Example get_polls_network_error :
  get_polls offline 0 10 default_base_url default_timeout_seconds None []
  = (Raise (RequestException "connection refused"),
     [Request.make GET "http://localhost:8000/polls" [("skip", 0); ("limit", 10)]
        None [] default_timeout_seconds]).
Proof. reflexivity. Qed.

(** ** Runs of the theorems above *)

Lemma get_polls_invalid_page_no_call_witness :
  result (get_polls offline (-1) 10 default_base_url default_timeout_seconds None) []
    = Raise (ValueError "skip must be a non-negative integer")
  /\ calls (get_polls offline (-1) 10 default_base_url default_timeout_seconds None) [] = [].
Proof.
  apply (get_polls_invalid_page_no_call offline (-1) 10 default_base_url
           default_timeout_seconds None []).
  left. lia.
Defined.

Lemma vote_on_poll_invalid_args_no_call_witness :
  result (vote_on_poll offline repr_type 5 1 "" default_base_url
            default_timeout_seconds None) []
    = Raise (ValueError "token must be a non-empty string")
  /\ calls (vote_on_poll offline repr_type 5 1 "" default_base_url
              default_timeout_seconds None) [] = [].
Proof.
  apply (vote_on_poll_invalid_args_no_call offline repr_type 5 1 "" default_base_url
           default_timeout_seconds None []).
  right. right. reflexivity.
Defined.

Lemma register_user_other_status_witness :
  exists msg,
    result (register_user offline repr_type "alice" "secret" default_base_url
              default_timeout_seconds (Some (mock (reply 503 "down" None)))) []
    = Raise (HTTPError msg (reply 503 "down" None)).
Proof.
  apply (register_user_other_status offline repr_type "alice" "secret" default_base_url
           default_timeout_seconds (Some (mock (reply 503 "down" None))) []
           (reply 503 "down" None)).
  - discriminate.
  - discriminate.
  - reflexivity.
  - simpl. lia.
  - simpl. lia.
  - simpl. lia.
Defined.

Lemma get_polls_200_protocol_error_witness :
  result (get_polls offline 0 10 default_base_url default_timeout_seconds
            (Some (mock (reply 200 user_alice_text (Some user_alice))))) []
    = Raise (ValueError "Expected response to be a JSON array of polls").
Proof.
  apply (get_polls_200_protocol_error offline 0 10 default_base_url
           default_timeout_seconds
           (Some (mock (reply 200 user_alice_text (Some user_alice)))) []
           (reply 200 user_alice_text (Some user_alice))) with (v := user_alice).
  - lia.
  - lia.
  - reflexivity.
  - reflexivity.
  - reflexivity.
  - reflexivity.
Defined.

Lemma success_body_returned_unchanged_witness :
  result (register_user offline repr_type "alice" "secret" default_base_url
            default_timeout_seconds
            (Some (mock (reply 200 user_alice_text (Some user_alice))))) []
    = Return user_alice.
Proof.
  apply (success_body_returned_unchanged offline repr_type
           (reply 200 user_alice_text (Some user_alice)) user_alice).
  - reflexivity.
  - reflexivity.
  - discriminate.
  - discriminate.
  - reflexivity.
Defined.

Lemma success_body_shape_unchecked_witness :
  result (register_user offline repr_type "alice" "secret" default_base_url
            default_timeout_seconds (Some (mock (reply 200 "7" (Some (JInt 7)))))) []
    = Return (JInt 7)
  /\ result (register_user offline repr_type "alice" "secret" default_base_url
               default_timeout_seconds
               (Some (mock (reply 200 user_alice_text (Some user_alice))))) []
     = Return user_alice
  /\ result (vote_on_poll offline repr_type 5 1 "tok" default_base_url
               default_timeout_seconds
               (Some (mock (reply 200 polls_page_text (Some polls_page))))) []
     = Return polls_page
  /\ result (get_poll_results offline repr_type 5 default_base_url
               default_timeout_seconds (Some (mock (reply 200 "7" (Some (JInt 7)))))) []
     = Raise (ValueError "Expected response to be a JSON object for poll results").
Proof.
  split; [|split; [|split]].
  - apply (success_body_shape_unchecked offline repr_type
             (reply 200 "7" (Some (JInt 7))) (JInt 7) eq_refl eq_refl).
    + discriminate.
    + discriminate.
    + reflexivity.
  - apply (success_body_shape_unchecked offline repr_type
             (reply 200 user_alice_text (Some user_alice)) user_alice eq_refl eq_refl).
    + discriminate.
    + discriminate.
    + reflexivity.
  - apply (success_body_shape_unchecked offline repr_type
             (reply 200 polls_page_text (Some polls_page)) polls_page eq_refl eq_refl).
    + lia.
    + lia.
    + discriminate.
    + reflexivity.
  - apply (success_body_shape_unchecked offline repr_type
             (reply 200 "7" (Some (JInt 7))) (JInt 7) eq_refl eq_refl).
    + reflexivity.
    + lia.
    + reflexivity.
Defined.

Lemma vote_on_poll_404_not_found_witness :
  result (vote_on_poll offline repr_type 5 1 "tok" default_base_url
            default_timeout_seconds
            (Some (mock (reply 404 (detail_body_text "poll missing")
                           (Some (detail_body "poll missing")))))) []
    = Raise (FileNotFoundError "Not found: poll missing").
Proof.
  apply (vote_on_poll_404_not_found offline repr_type 5 1 "tok" default_base_url
           default_timeout_seconds
           (Some (mock (reply 404 (detail_body_text "poll missing")
                          (Some (detail_body "poll missing"))))) []
           (reply 404 (detail_body_text "poll missing")
              (Some (detail_body "poll missing"))))
    with (fields := [("detail", JString "poll missing")]).
  - lia.
  - lia.
  - discriminate.
  - reflexivity.
  - reflexivity.
  - reflexivity.
Defined.

Lemma falsy_detail_treated_as_absent_witness :
  result (register_user offline repr_type "alice" "secret" default_base_url
            default_timeout_seconds
            (Some (mock (reply 400 empty_detail_body_text (Some empty_detail_body))))) []
    = Raise (ValueError "Registration failed (400): gone").
Proof.
  apply (falsy_detail_treated_as_absent offline repr_type
           [("detail", JString ""); ("message", JString "gone")] (JString "")
           (reply 400 empty_detail_body_text (Some empty_detail_body))
           eq_refl eq_refl eq_refl)
    with (session' := Some (mock (with_body
                                    (reply 400 empty_detail_body_text
                                       (Some empty_detail_body))
                                    (Some (JObject [("message", JString "gone")]))))).
  - discriminate.
  - discriminate.
  - reflexivity.
  - reflexivity.
  - reflexivity.
Defined.


(** * Further properties of the client *)

(** ** Trailing slashes of the base URL *)

Lemma rstrip_copies (c : ascii) (n : nat) : rstrip c (copies n c) = "".
Proof.
  induction n as [|n IH]; simpl; [reflexivity|].
  rewrite IH. now rewrite Ascii.eqb_refl.
Qed.

Lemma rstrip_app_copies (c : ascii) (s : string) (n : nat) :
  rstrip c (s ++ copies n c) = rstrip c s.
Proof.
  induction s as [|a s IH]; simpl.
  - apply rstrip_copies.
  - now rewrite IH.
Qed.

Lemma rstrip_not_ends_with (c : ascii) (s : string) : ends_with c (rstrip c s) = false.
Proof.
  induction s as [|a s IH]; simpl; [reflexivity|].
  destruct (rstrip c s) as [|b kept] eqn:E.
  - destruct (Ascii.eqb a c) eqn:Ea; simpl; [reflexivity|exact Ea].
  - simpl. simpl in IH. exact IH.
Qed.

Lemma rstrip_decompose (c : ascii) (s : string) :
  exists n, s = rstrip c s ++ copies n c.
Proof.
  induction s as [|a s [n IH]]; simpl.
  - now exists O.
  - destruct (rstrip c s) as [|b kept] eqn:E.
    + destruct (Ascii.eqb_spec a c) as [->|Hne].
      * exists (S n). simpl. now rewrite IH at 1.
      * exists n. simpl. now rewrite IH at 1.
    + exists n. simpl. now rewrite IH at 1.
Qed.

(** X1: [rstrip] removes exactly the trailing run of the character: the
    string is what is kept followed by copies of the character, what is kept
    does not end with the character, and a string that does not end with it
    is kept whole. *)
Theorem rstrip_trailing_run (c : ascii) (s : string) :
  (exists n, s = rstrip c s ++ copies n c)
  /\ ends_with c (rstrip c s) = false
  /\ (ends_with c s = false -> rstrip c s = s).
Proof.
  split; [apply rstrip_decompose|]. split; [apply rstrip_not_ends_with|].
  induction s as [|a s IH]; simpl; [reflexivity|].
  intros Hend. destruct s as [|b s'].
  - simpl. now rewrite Hend.
  - rewrite (IH Hend). reflexivity.
Qed.

(** Runs a client function up to the exception [H] the transport raises. *)
Ltac refused H :=
  valid_args; run_py;
  unfold register_request, polls_request, vote_request, results_request in H;
  rewrite H; run_py.

(** Splits on every comparison of the status code, keeping what it learns. *)
Ltac status_cases :=
  repeat (match goal with
          | |- context [Z.eqb (Response.status_code ?r) ?n] =>
              destruct (Z.eqb_spec (Response.status_code r) n)
          | |- context [Z.leb ?n (Response.status_code ?r)] =>
              destruct (Z.leb_spec n (Response.status_code r))
          | |- context [Z.ltb (Response.status_code ?r) ?n] =>
              destruct (Z.ltb_spec (Response.status_code r) n)
          end; cbv beta iota delta [andb]).

(** Splits on the decoded body of [r] and on what it makes the code do. *)
Ltac body_cases r :=
  let v := fresh "v" in
  let Hbody := fresh "Hbody" in
  destruct (Response.json r) as [v|] eqn:Hbody; cbv beta iota;
  [ destruct v; cbv beta iota delta [is_list is_dict negb]; split_cases | ].

(** Reads the origin of an exception off the branch that raised it. *)
Ltac origin Hout :=
  first
    [ discriminate Hout
    | inversion Hout; subst; clear Hout; cbv beta iota;
      first
        [ assumption
        | lia
        | split; [assumption | eexists; split; reflexivity]
        | split; [reflexivity |];
          first [left; split; [assumption | reflexivity] | right; lia] ] ].

(** Reads the origin of a returned value off the branch that returned it. *)
Ltac value_origin Hout :=
  first
    [ discriminate Hout
    | inversion Hout; subst; clear Hout;
      first
        [ left; repeat split; first [assumption | reflexivity]
        | right; split; [lia |]; split; [lia | reflexivity] ] ].

Section Coverage.

Variable requests : Transport.
Variable repr : JSON -> string.

(** X2: trailing slashes of [base_url] make no difference: each function
    behaves on [base_url] followed by any number of slashes exactly as on
    [base_url], down to the request it sends. *)
Theorem base_url_trailing_slashes
    (base_url : string) (n : nat) (timeout_seconds : float)
    (session : option Transport) :
  (forall username password,
      register_user requests repr username password (base_url ++ copies n "/")
        timeout_seconds session
      = register_user requests repr username password base_url timeout_seconds session)
  /\ (forall skip limit,
      get_polls requests skip limit (base_url ++ copies n "/") timeout_seconds session
      = get_polls requests skip limit base_url timeout_seconds session)
  /\ (forall poll_id option_id token,
      vote_on_poll requests repr poll_id option_id token (base_url ++ copies n "/")
        timeout_seconds session
      = vote_on_poll requests repr poll_id option_id token base_url
          timeout_seconds session)
  /\ (forall poll_id,
      get_poll_results requests repr poll_id (base_url ++ copies n "/")
        timeout_seconds session
      = get_poll_results requests repr poll_id base_url timeout_seconds session).
Proof.
  repeat split; intros;
    unfold register_user, get_polls, vote_on_poll, get_poll_results;
    rewrite rstrip_app_copies; reflexivity.
Qed.

(** ** Argument checks of the other two functions *)

(** X3: with an empty [username] or an empty [password], [register_user]
    raises the [ValueError] of its argument check, the one for the username
    first, and sends nothing. *)
Theorem register_user_empty_credentials_no_call
    (username password base_url : string) (timeout_seconds : float)
    (session : option Transport) (log : Log) :
  username = "" \/ password = "" ->
  result (register_user requests repr username password base_url
            timeout_seconds session) log
    = Raise (ValueError (if String.eqb username ""
                         then "username must be a non-empty string"
                         else "password must be a non-empty string"))
  /\ calls (register_user requests repr username password base_url
              timeout_seconds session) log = log.
Proof.
  intros Hbad. unfold register_user. simpl truthy.
  destruct (String.eqb_spec username "") as [Hu|Hu]; [now run_py|].
  destruct (String.eqb_spec password "") as [Hp|Hp]; [now run_py|].
  destruct Hbad; contradiction.
Qed.

(** X4: for [poll_id <= 0], [get_poll_results] raises the [ValueError] of its
    argument check and sends nothing. *)
Theorem get_poll_results_invalid_id_no_call
    (poll_id : Z) (base_url : string) (timeout_seconds : float)
    (session : option Transport) (log : Log) :
  poll_id <= 0 ->
  result (get_poll_results requests repr poll_id base_url timeout_seconds session) log
    = Raise (ValueError "poll_id must be a positive integer")
  /\ calls (get_poll_results requests repr poll_id base_url timeout_seconds session) log
     = log.
Proof.
  intros Hbad. unfold get_poll_results.
  destruct (Z.leb_spec poll_id 0); [now run_py|lia].
Qed.

(** ** The transport *)

(** X5: once the arguments passed their check, each function sends exactly
    one request, whatever the transport does with it: a [POST] of the
    credentials to [/register], a [GET] of [/polls] with [skip] and [limit]
    as parameters, a [POST] of the option to [/polls/{poll_id}/vote] under a
    bearer [Authorization] header, a [GET] of [/polls/{poll_id}/results];
    nothing is retried.  For the two functions that write [poll_id] into the
    URL this is for a [poll_id] whose digits the interpreter converts, below
    [10 ^ int_max_str_digits]; beyond it the formatting of the URL fails
    before anything is sent, which the statement leaves out. *)
Theorem one_request_per_call
    (base_url : string) (timeout_seconds : float)
    (session : option Transport) (log : Log) :
  (forall username password, username <> "" -> password <> "" ->
     calls (register_user requests repr username password base_url
              timeout_seconds session) log
     = app log [Request.make POST (rstrip "/" base_url ++ "/register") []
                  (Some (JObject [("username", JString username);
                                  ("password", JString password)]))
                  [] timeout_seconds])
  /\ (forall skip limit, 0 <= skip -> 0 < limit ->
     calls (get_polls requests skip limit base_url timeout_seconds session) log
     = app log [Request.make GET (rstrip "/" base_url ++ "/polls")
                  [("skip", skip); ("limit", limit)] None [] timeout_seconds])
  /\ (forall poll_id option_id token,
     0 < poll_id -> poll_id < 10 ^ int_max_str_digits ->
     0 < option_id -> token <> "" ->
     calls (vote_on_poll requests repr poll_id option_id token base_url
              timeout_seconds session) log
     = app log [Request.make POST
                  (rstrip "/" base_url ++ "/polls/" ++ str_of_int poll_id ++ "/vote") []
                  (Some (JObject [("option_id", JInt option_id)]))
                  [("Authorization", "Bearer " ++ token)] timeout_seconds])
  /\ (forall poll_id, 0 < poll_id -> poll_id < 10 ^ int_max_str_digits ->
     calls (get_poll_results requests repr poll_id base_url timeout_seconds session) log
     = app log [Request.make GET
                  (rstrip "/" base_url ++ "/polls/" ++ str_of_int poll_id ++ "/results")
                  [] None [] timeout_seconds]).
Proof.
  repeat split; intros.
  - now apply register_user_sends.
  - now apply get_polls_sends.
  - now apply vote_on_poll_sends.
  - now apply get_poll_results_sends.
Qed.

(** X6: an exception of the transport, of whatever class, goes through each
    function unchanged. *)
Theorem transport_exception_propagates
    (base_url : string) (timeout_seconds : float)
    (session : option Transport) (log : Log) (e : exn) :
  (forall username password, username <> "" -> password <> "" ->
     session_or_requests requests session log
       (register_request username password base_url timeout_seconds) = Raise e ->
     result (register_user requests repr username password base_url
               timeout_seconds session) log = Raise e)
  /\ (forall skip limit, 0 <= skip -> 0 < limit ->
     session_or_requests requests session log
       (polls_request skip limit base_url timeout_seconds) = Raise e ->
     result (get_polls requests skip limit base_url timeout_seconds session) log
     = Raise e)
  /\ (forall poll_id option_id token, 0 < poll_id -> 0 < option_id -> token <> "" ->
     session_or_requests requests session log
       (vote_request poll_id option_id token base_url timeout_seconds) = Raise e ->
     result (vote_on_poll requests repr poll_id option_id token base_url
               timeout_seconds session) log = Raise e)
  /\ (forall poll_id, 0 < poll_id ->
     session_or_requests requests session log
       (results_request poll_id base_url timeout_seconds) = Raise e ->
     result (get_poll_results requests repr poll_id base_url timeout_seconds session) log
     = Raise e).
Proof.
  split; [|split; [|split]].
  - intros username password Hu Hp Hraise. unfold register_user.
    refused Hraise. now destruct e.
  - intros skip limit Hs Hl Hraise. unfold get_polls.
    refused Hraise. now destruct e.
  - intros poll_id option_id token Hp Ho Ht Hraise. unfold vote_on_poll.
    refused Hraise. now destruct e.
  - intros poll_id Hp Hraise. unfold get_poll_results.
    refused Hraise. now destruct e.
Qed.

(** ** Dispatch on the status code *)

(** X7: a 401 answer to [vote_on_poll] raises [PermissionError] with a fixed
    message; the body of the answer is not looked at. *)
Theorem vote_on_poll_401_unauthorized
    (poll_id option_id : Z) (token base_url : string) (timeout_seconds : float)
    (session : option Transport) (log : Log) (r : Response.t) :
  0 < poll_id -> 0 < option_id -> token <> "" ->
  answers (session_or_requests requests session) log
    (vote_request poll_id option_id token base_url timeout_seconds) r ->
  Response.status_code r = 401 ->
  result (vote_on_poll requests repr poll_id option_id token base_url
            timeout_seconds session) log
    = Raise (PermissionError "Unauthorized: missing or invalid token").
Proof.
  intros Hp Ho Ht Hans H401. unfold vote_on_poll.
  answered Hans. case_status. reflexivity.
Qed.

(** X8: a 200 whose body does not decode raises an [HTTPError] that carries
    the response; [register_user] names the URL it posted to in the message,
    [vote_on_poll] and [get_poll_results] name the URL of the response. *)
Theorem success_undecodable_http_error
    (base_url : string) (timeout_seconds : float)
    (session : option Transport) (log : Log) (r : Response.t) :
  Response.status_code r = 200 -> Response.json r = None ->
  (forall username password, username <> "" -> password <> "" ->
     answers (session_or_requests requests session) log
       (register_request username password base_url timeout_seconds) r ->
     result (register_user requests repr username password base_url
               timeout_seconds session) log
     = Raise (HTTPError ("Expected JSON response from "
                         ++ (rstrip "/" base_url ++ "/register")
                         ++ ", but failed to parse.") r))
  /\ (forall poll_id option_id token, 0 < poll_id -> 0 < option_id -> token <> "" ->
     answers (session_or_requests requests session) log
       (vote_request poll_id option_id token base_url timeout_seconds) r ->
     result (vote_on_poll requests repr poll_id option_id token base_url
               timeout_seconds session) log
     = Raise (HTTPError ("Expected JSON VoteOut from " ++ Response.url r
                         ++ ", but failed to parse.") r))
  /\ (forall poll_id, 0 < poll_id ->
     answers (session_or_requests requests session) log
       (results_request poll_id base_url timeout_seconds) r ->
     result (get_poll_results requests repr poll_id base_url timeout_seconds session) log
     = Raise (HTTPError ("Expected JSON PollResults from " ++ Response.url r
                         ++ ", but failed to parse.") r)).
Proof.
  intros H200 Hbody. split; [|split].
  - intros username password Hu Hp Hans. unfold register_user.
    answered Hans. case_status. rewrite Hbody. reflexivity.
  - intros poll_id option_id token Hp Ho Ht Hans. unfold vote_on_poll.
    answered Hans. case_status. rewrite Hbody. reflexivity.
  - intros poll_id Hp Hans. unfold get_poll_results.
    answered Hans. case_status. rewrite Hbody. reflexivity.
Qed.

(** X9: [get_polls] treats every status other than 200 alike, 400, 401 and
    404 included: from 400 to 599 it raises the [HTTPError] of
    [raise_for_status], which carries the response; for any other status it
    raises nothing and returns the decoded body, whether an array or not, or
    else the dictionary of status code and text. *)
Theorem get_polls_other_status
    (skip limit : Z) (base_url : string) (timeout_seconds : float)
    (session : option Transport) (log : Log) (r : Response.t) :
  0 <= skip -> 0 < limit ->
  answers (session_or_requests requests session) log
    (polls_request skip limit base_url timeout_seconds) r ->
  Response.status_code r <> 200 ->
  (400 <= Response.status_code r < 600 ->
     exists msg,
       result (get_polls requests skip limit base_url timeout_seconds session) log
       = Raise (HTTPError msg r))
  /\ (~ 400 <= Response.status_code r < 600 ->
      result (get_polls requests skip limit base_url timeout_seconds session) log
      = Return (match Response.json r with
                | Some v => v
                | None => JObject [("status_code", JInt (Response.status_code r));
                                   ("content", JString (Response.text r))]
                end)).
Proof.
  intros Hs Hl Hans H200. unfold get_polls.
  answered Hans.
  split; intros Hrange.
  - case_status; eexists; reflexivity.
  - case_status; destruct (Response.json r); reflexivity.
Qed.

(** X10: for a status other than 200, 401 and 404, [vote_on_poll] raises the
    [HTTPError] of [raise_for_status], which carries the response, when the
    status lies between 400 and 599; for any other status it raises nothing
    and returns the decoded body, or else the dictionary of status code and
    text. *)
Theorem vote_on_poll_other_status
    (poll_id option_id : Z) (token base_url : string) (timeout_seconds : float)
    (session : option Transport) (log : Log) (r : Response.t) :
  0 < poll_id -> 0 < option_id -> token <> "" ->
  answers (session_or_requests requests session) log
    (vote_request poll_id option_id token base_url timeout_seconds) r ->
  Response.status_code r <> 200 -> Response.status_code r <> 401 ->
  Response.status_code r <> 404 ->
  (400 <= Response.status_code r < 600 ->
     exists msg,
       result (vote_on_poll requests repr poll_id option_id token base_url
                 timeout_seconds session) log
       = Raise (HTTPError msg r))
  /\ (~ 400 <= Response.status_code r < 600 ->
      result (vote_on_poll requests repr poll_id option_id token base_url
                timeout_seconds session) log
      = Return (match Response.json r with
                | Some v => v
                | None => JObject [("status_code", JInt (Response.status_code r));
                                   ("content", JString (Response.text r))]
                end)).
Proof.
  intros Hp Ho Ht Hans H200 H401 H404. unfold vote_on_poll.
  answered Hans.
  split; intros Hrange.
  - case_status; eexists; reflexivity.
  - case_status; destruct (Response.json r); reflexivity.
Qed.

(** X11: for a status other than 200 and 404, [get_poll_results] raises the
    [HTTPError] of [raise_for_status], which carries the response, when the
    status lies between 400 and 599 (a 401 is one of them); for any other
    status it raises nothing and returns the decoded body, whether an object
    or not, or else the dictionary of status code and text. *)
Theorem get_poll_results_other_status
    (poll_id : Z) (base_url : string) (timeout_seconds : float)
    (session : option Transport) (log : Log) (r : Response.t) :
  0 < poll_id ->
  answers (session_or_requests requests session) log
    (results_request poll_id base_url timeout_seconds) r ->
  Response.status_code r <> 200 -> Response.status_code r <> 404 ->
  (400 <= Response.status_code r < 600 ->
     exists msg,
       result (get_poll_results requests repr poll_id base_url timeout_seconds
                 session) log
       = Raise (HTTPError msg r))
  /\ (~ 400 <= Response.status_code r < 600 ->
      result (get_poll_results requests repr poll_id base_url timeout_seconds
                session) log
      = Return (match Response.json r with
                | Some v => v
                | None => JObject [("status_code", JInt (Response.status_code r));
                                   ("content", JString (Response.text r))]
                end)).
Proof.
  intros Hp Hans H200 H404. unfold get_poll_results.
  answered Hans.
  split; intros Hrange.
  - case_status; eexists; reflexivity.
  - case_status; destruct (Response.json r); reflexivity.
Qed.

(** ** Where an exception comes from *)

(** X12: what an exception of [vote_on_poll] tells about the answer, once the
    arguments passed their check: [PermissionError] means a 401,
    [FileNotFoundError] a 404, [AttributeError] a 404 whose body decoded to
    something other than an object, [HTTPError] carries the answer and means
    an undecodable 200 or a status from 400 to 599; no [ValueError] and no
    decoding error comes out. *)
Theorem vote_on_poll_exception_origin
    (poll_id option_id : Z) (token base_url : string) (timeout_seconds : float)
    (session : option Transport) (log : Log) (r : Response.t) (e : exn) :
  0 < poll_id -> 0 < option_id -> token <> "" ->
  answers (session_or_requests requests session) log
    (vote_request poll_id option_id token base_url timeout_seconds) r ->
  result (vote_on_poll requests repr poll_id option_id token base_url
            timeout_seconds session) log = Raise e ->
  match e with
  | PermissionError _ => Response.status_code r = 401
  | FileNotFoundError _ => Response.status_code r = 404
  | AttributeError _ =>
      Response.status_code r = 404
      /\ exists v, Response.json r = Some v /\ is_dict v = false
  | HTTPError _ response =>
      response = r
      /\ (Response.status_code r = 200 /\ Response.json r = None
          \/ 400 <= Response.status_code r < 600)
  | ValueError _ | JSONDecodeError | RequestException _ => False
  end.
Proof.
  intros Hp Ho Ht Hans. unfold vote_on_poll.
  answered Hans. status_cases; body_cases r; intros Hout; origin Hout.
Qed.

(** X13: what an exception of [register_user] tells about the answer, once
    the arguments passed their check.  For the exception classes of the model:
    [ValueError] means a 400, [AttributeError] a 400 whose body decoded to
    something other than an object, [HTTPError] carries the answer and means
    an undecodable 200 or a status from 400 to 599; the decoding error of
    [response.json()] never comes out as such, and no [PermissionError] or
    [FileNotFoundError] is raised.  An exception of another class that the
    decoding may raise (a [RecursionError] on deeply nested JSON) is not
    caught by [except ValueError]; it is outside [exn] and outside this
    statement. *)
Theorem register_user_exception_origin
    (username password base_url : string) (timeout_seconds : float)
    (session : option Transport) (log : Log) (r : Response.t) (e : exn) :
  username <> "" -> password <> "" ->
  answers (session_or_requests requests session) log
    (register_request username password base_url timeout_seconds) r ->
  result (register_user requests repr username password base_url
            timeout_seconds session) log = Raise e ->
  match e with
  | ValueError _ => Response.status_code r = 400
  | AttributeError _ =>
      Response.status_code r = 400
      /\ exists v, Response.json r = Some v /\ is_dict v = false
  | HTTPError _ response =>
      response = r
      /\ (Response.status_code r = 200 /\ Response.json r = None
          \/ 400 <= Response.status_code r < 600)
  | JSONDecodeError | PermissionError _ | FileNotFoundError _
  | RequestException _ => False
  end.
Proof.
  intros Hu Hp Hans. unfold register_user.
  answered Hans. status_cases; body_cases r; intros Hout; origin Hout.
Qed.

(** X14: what an exception of [get_polls] tells about the answer, once the
    arguments passed their check.  For the exception classes of the model:
    [ValueError] means a 200 whose body decoded to something other than an
    array, [HTTPError] carries the answer and means an undecodable 200 or a
    status from 400 to 599; the decoding error of [response.json()] never
    comes out as such, and no [AttributeError], [PermissionError] or
    [FileNotFoundError] is raised.  An exception of another class that the
    decoding may raise (a [RecursionError] on deeply nested JSON) is not
    caught by [except ValueError]; it is outside [exn] and outside this
    statement. *)
Theorem get_polls_exception_origin
    (skip limit : Z) (base_url : string) (timeout_seconds : float)
    (session : option Transport) (log : Log) (r : Response.t) (e : exn) :
  0 <= skip -> 0 < limit ->
  answers (session_or_requests requests session) log
    (polls_request skip limit base_url timeout_seconds) r ->
  result (get_polls requests skip limit base_url timeout_seconds session) log
    = Raise e ->
  match e with
  | ValueError _ =>
      Response.status_code r = 200
      /\ exists v, Response.json r = Some v /\ is_list v = false
  | HTTPError _ response =>
      response = r
      /\ (Response.status_code r = 200 /\ Response.json r = None
          \/ 400 <= Response.status_code r < 600)
  | JSONDecodeError | AttributeError _ | PermissionError _ | FileNotFoundError _
  | RequestException _ => False
  end.
Proof.
  intros Hs Hl Hans. unfold get_polls.
  answered Hans. status_cases; body_cases r; intros Hout; origin Hout.
Qed.

(** X15: what an exception of [get_poll_results] tells about the answer, once
    the argument passed its check and was written into the URL (a [poll_id]
    below [10 ^ int_max_str_digits]; beyond it the formatting itself raises
    [ValueError]).  For the exception classes of the model: [ValueError] means
    a 200 whose body decoded to something other than an object,
    [FileNotFoundError] a 404, [AttributeError] a 404 whose body decoded to
    something other than an object, [HTTPError] carries the answer and means
    an undecodable 200 or a status from 400 to 599; the decoding error of
    [response.json()] never comes out as such, and no [PermissionError] is
    raised.  An exception of another class that the decoding may raise (a
    [RecursionError] on deeply nested JSON) is not caught by
    [except ValueError]; it is outside [exn] and outside this statement. *)
Theorem get_poll_results_exception_origin
    (poll_id : Z) (base_url : string) (timeout_seconds : float)
    (session : option Transport) (log : Log) (r : Response.t) (e : exn) :
  0 < poll_id -> poll_id < 10 ^ int_max_str_digits ->
  answers (session_or_requests requests session) log
    (results_request poll_id base_url timeout_seconds) r ->
  result (get_poll_results requests repr poll_id base_url timeout_seconds session) log
    = Raise e ->
  match e with
  | ValueError _ =>
      Response.status_code r = 200
      /\ exists v, Response.json r = Some v /\ is_dict v = false
  | FileNotFoundError _ => Response.status_code r = 404
  | AttributeError _ =>
      Response.status_code r = 404
      /\ exists v, Response.json r = Some v /\ is_dict v = false
  | HTTPError _ response =>
      response = r
      /\ (Response.status_code r = 200 /\ Response.json r = None
          \/ 400 <= Response.status_code r < 600)
  | JSONDecodeError | PermissionError _ | RequestException _ => False
  end.
Proof.
  intros Hp Hdigits Hans. unfold get_poll_results.
  answered Hans. status_cases; body_cases r; intros Hout; origin Hout.
Qed.

(** ** Where a returned value comes from *)

(** X16: a value that a function returns is the decoded body of a 200, an
    array in the case of [get_polls] and an object in the case of
    [get_poll_results], or else it is the fallback for a status other than
    200 outside 400 to 599: the decoded body, of whatever kind, or the
    dictionary of status code and text. *)
Theorem returned_value_origin
    (base_url : string) (timeout_seconds : float)
    (session : option Transport) (log : Log) (r : Response.t) (v : JSON) :
  let fallback :=
    Response.status_code r <> 200 /\ ~ 400 <= Response.status_code r < 600
    /\ v = match Response.json r with
           | Some body => body
           | None => JObject [("status_code", JInt (Response.status_code r));
                              ("content", JString (Response.text r))]
           end in
  (forall username password, username <> "" -> password <> "" ->
     answers (session_or_requests requests session) log
       (register_request username password base_url timeout_seconds) r ->
     result (register_user requests repr username password base_url
               timeout_seconds session) log = Return v ->
     Response.status_code r = 200 /\ Response.json r = Some v \/ fallback)
  /\ (forall skip limit, 0 <= skip -> 0 < limit ->
     answers (session_or_requests requests session) log
       (polls_request skip limit base_url timeout_seconds) r ->
     result (get_polls requests skip limit base_url timeout_seconds session) log
       = Return v ->
     Response.status_code r = 200 /\ Response.json r = Some v /\ is_list v = true
     \/ fallback)
  /\ (forall poll_id option_id token, 0 < poll_id -> 0 < option_id -> token <> "" ->
     answers (session_or_requests requests session) log
       (vote_request poll_id option_id token base_url timeout_seconds) r ->
     result (vote_on_poll requests repr poll_id option_id token base_url
               timeout_seconds session) log = Return v ->
     Response.status_code r = 200 /\ Response.json r = Some v \/ fallback)
  /\ (forall poll_id, 0 < poll_id ->
     answers (session_or_requests requests session) log
       (results_request poll_id base_url timeout_seconds) r ->
     result (get_poll_results requests repr poll_id base_url timeout_seconds session) log
       = Return v ->
     Response.status_code r = 200 /\ Response.json r = Some v /\ is_dict v = true
     \/ fallback).
Proof.
  intros fallback. subst fallback. split; [|split; [|split]].
  - intros username password Hu Hp Hans. unfold register_user.
    answered Hans. status_cases; body_cases r; intros Hout; value_origin Hout.
  - intros skip limit Hs Hl Hans. unfold get_polls.
    answered Hans. status_cases; body_cases r; intros Hout; value_origin Hout.
  - intros poll_id option_id token Hp Ho Ht Hans. unfold vote_on_poll.
    answered Hans. status_cases; body_cases r; intros Hout; value_origin Hout.
  - intros poll_id Hp Hans. unfold get_poll_results.
    answered Hans. status_cases; body_cases r; intros Hout; value_origin Hout.
Qed.

(** ** Messages of the error paths *)

(** X17: a 400 answer to [register_user] whose body does not decode, or
    decodes to an object, raises [ValueError] with the message
    ["Registration failed (400): "] followed by the [detail] field when that
    is true, else by the [message] field when that is true, else by the raw
    text of the answer; an undecodable body gives the raw text. *)
Theorem register_user_400_message
    (username password base_url : string) (timeout_seconds : float)
    (session : option Transport) (log : Log) (r : Response.t) :
  username <> "" -> password <> "" ->
  answers (session_or_requests requests session) log
    (register_request username password base_url timeout_seconds) r ->
  Response.status_code r = 400 ->
  (Response.json r = None ->
     result (register_user requests repr username password base_url
               timeout_seconds session) log
     = Raise (ValueError ("Registration failed (400): " ++ Response.text r)))
  /\ (forall fields, Response.json r = Some (JObject fields) ->
      result (register_user requests repr username password base_url
                timeout_seconds session) log
      = Raise (ValueError
                 ("Registration failed (400): "
                  ++ str repr (if truthy (dict_get fields "detail")
                               then dict_get fields "detail"
                               else if truthy (dict_get fields "message")
                                    then dict_get fields "message"
                                    else JString (Response.text r))))).
Proof.
  intros Hu Hp Hans H400. split.
  - intros Hbody. now apply register_user_400_undecodable.
  - intros fields Hbody. now apply register_user_400_object.
Qed.

(** X18: a 404 answer to [get_poll_results] whose body does not decode, or
    decodes to an object, raises [FileNotFoundError]; the message is
    ["Poll not found: "] followed by the [detail] field when that is true,
    else by the [message] field when that is true, and otherwise it is
    ["Poll not found"]. *)
Theorem get_poll_results_404_message
    (poll_id : Z) (base_url : string) (timeout_seconds : float)
    (session : option Transport) (log : Log) (r : Response.t) :
  0 < poll_id ->
  answers (session_or_requests requests session) log
    (results_request poll_id base_url timeout_seconds) r ->
  Response.status_code r = 404 ->
  (Response.json r = None ->
     result (get_poll_results requests repr poll_id base_url timeout_seconds session) log
     = Raise (FileNotFoundError "Poll not found"))
  /\ (forall fields, Response.json r = Some (JObject fields) ->
      result (get_poll_results requests repr poll_id base_url timeout_seconds
                session) log
      = Raise (FileNotFoundError
                 (if truthy (dict_get fields "detail")
                  then "Poll not found: " ++ str repr (dict_get fields "detail")
                  else if truthy (dict_get fields "message")
                       then "Poll not found: " ++ str repr (dict_get fields "message")
                       else "Poll not found"))).
Proof.
  intros Hp Hans H404. split.
  - intros Hbody. now apply get_poll_results_404_undecodable with (r := r).
  - intros fields Hbody. now apply get_poll_results_404_object with (r := r).
Qed.

(** X19: on the three paths that extract an error detail, a body that
    decodes to anything but an object (null, a boolean, a number, a string,
    an array) makes the function raise [AttributeError], with the message
    Python gives for a missing [get] attribute, in place of the error of the
    path. *)
Theorem extraction_non_object_attribute_error
    (base_url : string) (timeout_seconds : float)
    (session : option Transport) (log : Log) (r : Response.t) (v : JSON) :
  Response.json r = Some v -> is_dict v = false ->
  (forall username password, username <> "" -> password <> "" ->
     answers (session_or_requests requests session) log
       (register_request username password base_url timeout_seconds) r ->
     Response.status_code r = 400 ->
     result (register_user requests repr username password base_url
               timeout_seconds session) log
     = Raise (AttributeError ("'" ++ type_name v ++ "' object has no attribute 'get'")))
  /\ (forall poll_id option_id token, 0 < poll_id -> 0 < option_id -> token <> "" ->
     answers (session_or_requests requests session) log
       (vote_request poll_id option_id token base_url timeout_seconds) r ->
     Response.status_code r = 404 ->
     result (vote_on_poll requests repr poll_id option_id token base_url
               timeout_seconds session) log
     = Raise (AttributeError ("'" ++ type_name v ++ "' object has no attribute 'get'")))
  /\ (forall poll_id, 0 < poll_id ->
     answers (session_or_requests requests session) log
       (results_request poll_id base_url timeout_seconds) r ->
     Response.status_code r = 404 ->
     result (get_poll_results requests repr poll_id base_url timeout_seconds session) log
     = Raise (AttributeError ("'" ++ type_name v ++ "' object has no attribute 'get'"))).
Proof.
  intros Hbody Hv. split; [|split].
  - intros username password Hu Hp Hans H400.
    now apply register_user_400_not_object with (r := r).
  - intros poll_id option_id token Hp Ho Ht Hans H404.
    now apply vote_on_poll_404_not_object with (r := r).
  - intros poll_id Hp Hans H404.
    now apply get_poll_results_404_not_object with (r := r).
Qed.

End Coverage.

(** ** Runs of the further properties *)

Lemma rstrip_trailing_run_witness : rstrip "/" "http://host/api" = "http://host/api".
Proof.
  apply (rstrip_trailing_run "/" "http://host/api"). reflexivity.
Defined.

Lemma register_user_empty_credentials_no_call_witness :
  result (register_user offline repr_type "" "" default_base_url
            default_timeout_seconds None) []
    = Raise (ValueError "username must be a non-empty string")
  /\ calls (register_user offline repr_type "" "" default_base_url
              default_timeout_seconds None) [] = [].
Proof.
  apply (register_user_empty_credentials_no_call offline repr_type "" ""
           default_base_url default_timeout_seconds None []).
  left. reflexivity.
Defined.

Lemma get_poll_results_invalid_id_no_call_witness :
  result (get_poll_results offline repr_type 0 default_base_url
            default_timeout_seconds None) []
    = Raise (ValueError "poll_id must be a positive integer")
  /\ calls (get_poll_results offline repr_type 0 default_base_url
              default_timeout_seconds None) [] = [].
Proof.
  apply (get_poll_results_invalid_id_no_call offline repr_type 0 default_base_url
           default_timeout_seconds None []).
  lia.
Defined.

Lemma one_request_per_call_witness :
  calls (vote_on_poll offline repr_type 5 1 "tok" "http://localhost:8000//"
           default_timeout_seconds None) []
  = [Request.make POST "http://localhost:8000/polls/5/vote" []
       (Some (JObject [("option_id", JInt 1)]))
       [("Authorization", "Bearer tok")] default_timeout_seconds].
Proof.
  apply (one_request_per_call offline repr_type "http://localhost:8000//"
           default_timeout_seconds None []).
  - lia.
  - vm_compute. reflexivity.
  - lia.
  - discriminate.
Defined.

Lemma transport_exception_propagates_witness :
  result (get_polls offline 0 10 default_base_url default_timeout_seconds None) []
  = Raise (RequestException "connection refused").
Proof.
  apply (transport_exception_propagates offline repr_type default_base_url
           default_timeout_seconds None [] (RequestException "connection refused")).
  - lia.
  - lia.
  - reflexivity.
Defined.

Lemma vote_on_poll_401_unauthorized_witness :
  result (vote_on_poll offline repr_type 5 1 "tok" default_base_url
            default_timeout_seconds
            (Some (mock (reply 401 (detail_body_text "Not authenticated")
                           (Some (detail_body "Not authenticated")))))) []
  = Raise (PermissionError "Unauthorized: missing or invalid token").
Proof.
  apply (vote_on_poll_401_unauthorized offline repr_type 5 1 "tok" default_base_url
           default_timeout_seconds
           (Some (mock (reply 401 (detail_body_text "Not authenticated")
                          (Some (detail_body "Not authenticated"))))) []
           (reply 401 (detail_body_text "Not authenticated")
              (Some (detail_body "Not authenticated")))).
  - lia.
  - lia.
  - discriminate.
  - reflexivity.
  - reflexivity.
Defined.

Lemma success_undecodable_http_error_witness :
  result (register_user offline repr_type "alice" "secret" "http://localhost:8000/"
            default_timeout_seconds (Some (mock (reply 200 "<html>" None)))) []
  = Raise (HTTPError
             "Expected JSON response from http://localhost:8000/register, but failed to parse."
             (reply 200 "<html>" None)).
Proof.
  apply (success_undecodable_http_error offline repr_type "http://localhost:8000/"
           default_timeout_seconds (Some (mock (reply 200 "<html>" None))) []
           (reply 200 "<html>" None) eq_refl eq_refl).
  - discriminate.
  - discriminate.
  - reflexivity.
Defined.

Lemma get_polls_other_status_witness :
  result (get_polls offline 0 10 default_base_url default_timeout_seconds
            (Some (mock (reply 204 "" None)))) []
  = Return (JObject [("status_code", JInt 204); ("content", JString "")]).
Proof.
  apply (get_polls_other_status offline 0 10 default_base_url default_timeout_seconds
           (Some (mock (reply 204 "" None))) [] (reply 204 "" None)).
  - lia.
  - lia.
  - reflexivity.
  - simpl. lia.
  - simpl. lia.
Defined.

Lemma vote_on_poll_other_status_witness :
  exists msg,
    result (vote_on_poll offline repr_type 5 1 "tok" default_base_url
              default_timeout_seconds (Some (mock (reply 422 "" None)))) []
    = Raise (HTTPError msg (reply 422 "" None)).
Proof.
  apply (vote_on_poll_other_status offline repr_type 5 1 "tok" default_base_url
           default_timeout_seconds (Some (mock (reply 422 "" None))) []
           (reply 422 "" None)).
  - lia.
  - lia.
  - discriminate.
  - reflexivity.
  - simpl. lia.
  - simpl. lia.
  - simpl. lia.
  - simpl. lia.
Defined.

Lemma get_poll_results_other_status_witness :
  exists msg,
    result (get_poll_results offline repr_type 5 default_base_url
              default_timeout_seconds (Some (mock (reply 401 "" None)))) []
    = Raise (HTTPError msg (reply 401 "" None)).
Proof.
  apply (get_poll_results_other_status offline repr_type 5 default_base_url
           default_timeout_seconds (Some (mock (reply 401 "" None))) []
           (reply 401 "" None)).
  - lia.
  - reflexivity.
  - simpl. lia.
  - simpl. lia.
  - simpl. lia.
Defined.

Lemma vote_on_poll_exception_origin_witness :
  Response.status_code (reply 401 "" None) = 401.
Proof.
  apply (vote_on_poll_exception_origin offline repr_type 5 1 "tok" default_base_url
           default_timeout_seconds (Some (mock (reply 401 "" None))) []
           (reply 401 "" None)
           (PermissionError "Unauthorized: missing or invalid token")).
  - lia.
  - lia.
  - discriminate.
  - reflexivity.
  - reflexivity.
Defined.

Lemma register_user_exception_origin_witness :
  Response.status_code (reply 400 "taken" None) = 400.
Proof.
  apply (register_user_exception_origin offline repr_type "alice" "secret"
           default_base_url default_timeout_seconds
           (Some (mock (reply 400 "taken" None))) [] (reply 400 "taken" None)
           (ValueError "Registration failed (400): taken")).
  - discriminate.
  - discriminate.
  - reflexivity.
  - reflexivity.
Defined.

Lemma get_polls_exception_origin_witness :
  Response.status_code (reply 200 user_alice_text (Some user_alice)) = 200
  /\ exists v, Response.json (reply 200 user_alice_text (Some user_alice)) = Some v
               /\ is_list v = false.
Proof.
  apply (get_polls_exception_origin offline 0 10 default_base_url
           default_timeout_seconds
           (Some (mock (reply 200 user_alice_text (Some user_alice)))) []
           (reply 200 user_alice_text (Some user_alice))
           (ValueError "Expected response to be a JSON array of polls")).
  - lia.
  - lia.
  - reflexivity.
  - reflexivity.
Defined.

Lemma get_poll_results_exception_origin_witness :
  Response.status_code (reply 404 "" None) = 404.
Proof.
  apply (get_poll_results_exception_origin offline repr_type 5 default_base_url
           default_timeout_seconds (Some (mock (reply 404 "" None))) []
           (reply 404 "" None) (FileNotFoundError "Poll not found")).
  - lia.
  - vm_compute. reflexivity.
  - reflexivity.
  - reflexivity.
Defined.

Lemma returned_value_origin_witness :
  Response.status_code (reply 200 polls_page_text (Some polls_page)) = 200
  /\ Response.json (reply 200 polls_page_text (Some polls_page)) = Some polls_page
  /\ is_list polls_page = true
  \/ Response.status_code (reply 200 polls_page_text (Some polls_page)) <> 200
     /\ ~ 400 <= Response.status_code (reply 200 polls_page_text (Some polls_page)) < 600
     /\ polls_page
        = match Response.json (reply 200 polls_page_text (Some polls_page)) with
          | Some body => body
          | None =>
              JObject
                [("status_code",
                  JInt (Response.status_code
                          (reply 200 polls_page_text (Some polls_page))));
                 ("content",
                  JString (Response.text
                             (reply 200 polls_page_text (Some polls_page))))]
          end.
Proof.
  apply (returned_value_origin offline repr_type default_base_url
           default_timeout_seconds
           (Some (mock (reply 200 polls_page_text (Some polls_page)))) []
           (reply 200 polls_page_text (Some polls_page)) polls_page)
    with (skip := 0) (limit := 10).
  - lia.
  - lia.
  - reflexivity.
  - reflexivity.
Defined.

Lemma register_user_400_message_witness :
  result (register_user offline repr_type "alice" "secret" default_base_url
            default_timeout_seconds (Some (mock (reply 400 "taken" None)))) []
  = Raise (ValueError "Registration failed (400): taken").
Proof.
  apply (register_user_400_message offline repr_type "alice" "secret" default_base_url
           default_timeout_seconds (Some (mock (reply 400 "taken" None))) []
           (reply 400 "taken" None)).
  - discriminate.
  - discriminate.
  - reflexivity.
  - reflexivity.
  - reflexivity.
Defined.

Lemma get_poll_results_404_message_witness :
  result (get_poll_results offline repr_type 5 default_base_url default_timeout_seconds
            (Some (mock (reply 404 empty_detail_body_text (Some empty_detail_body))))) []
  = Raise (FileNotFoundError "Poll not found: gone").
Proof.
  apply (get_poll_results_404_message offline repr_type 5 default_base_url
           default_timeout_seconds
           (Some (mock (reply 404 empty_detail_body_text (Some empty_detail_body)))) []
           (reply 404 empty_detail_body_text (Some empty_detail_body)))
    with (fields := [("detail", JString ""); ("message", JString "gone")]).
  - lia.
  - reflexivity.
  - reflexivity.
  - reflexivity.
Defined.

Lemma extraction_non_object_attribute_error_witness :
  result (vote_on_poll offline repr_type 5 1 "tok" default_base_url
            default_timeout_seconds
            (Some (mock (reply 404 "404" (Some (JInt 404)))))) []
  = Raise (AttributeError "'int' object has no attribute 'get'").
Proof.
  apply (extraction_non_object_attribute_error offline repr_type default_base_url
           default_timeout_seconds (Some (mock (reply 404 "404" (Some (JInt 404))))) []
           (reply 404 "404" (Some (JInt 404))) (JInt 404) eq_refl eq_refl).
  - lia.
  - lia.
  - discriminate.
  - reflexivity.
  - reflexivity.
Defined.
